(** * Stock-quote adapter: a shallow embedding of [app/adapter.py]

    The adapter is a one-shot command line program.  The host hands it a
    method name and two file names; the program reads its configuration
    from the first file, possibly issues one HTTP GET to the market-data
    provider, and writes a result to the second file.

    The embedding has three layers:
    - Python control flow ([try]/[except Exception]/[finally], [return],
      [sys.exit]) as a small state monad whose computations finish with a
      [completion];
    - the data the program handles: parsed JSON, the result objects of the
      integration SDK, the adapter definition;
    - the five functions of [adapter.py], written statement by statement.

    Calls to [logger] and the [Timer] context manager only observe the
    run; they are taken not to raise and are left out of the model.  What
    a [logger] call is given is still computed: the [get_json()] in the
    messages of [collect] is part of the model, because it can raise. *)

From Stdlib Require Import ZArith PrimFloat FloatOps SpecFloat.
From stdpp Require Import gmap strings list.

Set Warnings "-inexact-float,-register-all".
Set Default Proof Using "Type".
Open Scope string_scope.
Open Scope Z_scope.

(** ** Exceptions and completions *)

(** An instance of Python's [Exception]: the class name and the printed
    arguments. [sys.exit] raises [SystemExit], which is not an
    [Exception]; it is a completion of its own below. *)
Record exn := Exn { exn_class : string; exn_args : string }.

(** [repr(e)] *)
Definition repr (e : exn) : string :=
  exn_class e ++ "(" ++ exn_args e ++ ")".

(** The double quote, which Python puts around a text that holds a single
    quote. *)
Definition double_quote : string :=
  String (Ascii.Ascii false true false false false true false false) "".

(** The single quote, as a character. *)
Definition quote_char : Ascii.ascii :=
  Ascii.Ascii true true true false false true false false.

Fixpoint holds_quote (s : string) : bool :=
  match s with
  | EmptyString => false
  | String c s' => Ascii.eqb c quote_char || holds_quote s'
  end.

(** [repr(s)] for a text of plain printable characters without double
    quote or backslash, which is what the messages below are. *)
Definition str_repr (s : string) : string :=
  if holds_quote s then double_quote ++ s ++ double_quote
  else "'" ++ s ++ "'".

Definition KeyError (k : string) : exn := Exn "KeyError" (str_repr k).
Definition TypeError (msg : string) : exn := Exn "TypeError" (str_repr msg).
Definition OverflowError (msg : string) : exn :=
  Exn "OverflowError" (str_repr msg).
Definition AttributeError (msg : string) : exn :=
  Exn "AttributeError" (str_repr msg).
Definition KeyException (msg : string) : exn :=
  Exn "KeyException" (str_repr msg).

(** How a block of statements can stop before its end. *)
Inductive signal (R : Type) : Type :=
| Return (r : R)      (* a [return] statement *)
| Raise (e : exn)     (* an exception that [except Exception] catches *)
| Exit (code : Z).    (* [sys.exit(code)] *)
Arguments Return {R} r.
Arguments Raise {R} e.
Arguments Exit {R} code.

Inductive completion (R A : Type) : Type :=
| Normal (a : A)
| Abrupt (g : signal R).
Arguments Normal {R A} a.
Arguments Abrupt {R A} g.

Module Py.
(** A block of statements over a state [S], inside a function that
    returns [R], producing an [A] when it runs to its end. *)
Definition t (S R A : Type) : Type := S -> completion R A * S.

Section Ops.
Context {S R : Type}.

Definition ret {A} (a : A) : t S R A := fun s => (Normal a, s).

Definition bind {A B} (m : t S R A) (k : A -> t S R B) : t S R B :=
  fun s =>
    match m s with
    | (Normal a, s') => k a s'
    | (Abrupt g, s') => (Abrupt g, s')
    end.

Definition stop {A} (g : signal R) : t S R A := fun s => (Abrupt g, s).

Definition get : t S R S := fun s => (Normal s, s).

Definition modify (f : S -> S) : t S R unit := fun s => (Normal tt, f s).

(** A method that changes the object it is called on and has a value. *)
Definition state {A} (f : S -> A * S) : t S R A :=
  fun s => let '(a, s') := f s in (Normal a, s').

(** A call that may raise: [inl e] raises [e]. *)
Definition lift {A} (x : exn + A) : t S R A :=
  match x with
  | inr a => ret a
  | inl e => stop (Raise e)
  end.

(** [try: body / except Exception as e: handler e].  Only [Raise] is
    caught; [return] and [sys.exit] pass through. *)
Definition try_except {A} (body : t S R A) (handler : exn -> t S R A)
  : t S R A :=
  fun s =>
    match body s with
    | (Abrupt (Raise e), s') => handler e s'
    | other => other
    end.

(** [try: body / finally: final].  The [finally] block always runs;
    when it stops abruptly itself (a [return], an exception or
    [sys.exit] inside it) that completion replaces whatever the body
    did, otherwise the body's completion stands. *)
Definition try_finally {A} (body : t S R A) (final : t S R unit)
  : t S R A :=
  fun s =>
    let '(c, s1) := body s in
    match final s1 with
    | (Normal _, s2) => (c, s2)
    | (Abrupt g, s2) => (Abrupt g, s2)
    end.
End Ops.

(** Calling a function whose body is [body], with fresh locals [locals]:
    the callee shares the world [W] with its caller, and its [return r]
    becomes the value [Some r] of the call; falling off the end of the
    body gives Python's [None]. *)
Definition call {W L R R' A} (locals : L) (body : t (W * L) R A)
  : t W R' (option R) :=
  fun w =>
    match body (w, locals) with
    | (Normal _, (w', _)) => (Normal None, w')
    | (Abrupt (Return r), (w', _)) => (Normal (Some r), w')
    | (Abrupt (Raise e), (w', _)) => (Abrupt (Raise e), w')
    | (Abrupt (Exit n), (w', _)) => (Abrupt (Exit n), w')
    end.

(** Statements that touch only the world, or only the locals. *)
Definition in_world {W L R A} (m : t W R A) : t (W * L) R A :=
  fun '(w, l) => let '(c, w') := m w in (c, (w', l)).

Definition in_locals {W L R A} (m : t L R A) : t (W * L) R A :=
  fun '(w, l) => let '(c, l') := m l in (c, (w, l')).
End Py.

Declare Scope py_scope.
Delimit Scope py_scope with py.
Notation "x <- m ;; k" := (Py.bind m (fun x => k))
  (at level 100, m at next level, right associativity) : py_scope.
Notation "m ;; k" := (Py.bind m (fun _ => k))
  (at level 100, right associativity) : py_scope.

(** ** Parsed JSON *)

(** What [response.json()] returns: Python's rendering of a JSON text. *)
Inductive json : Type :=
| JNull
| JBool (b : bool)
| JInt (z : Z)
| JFloat (f : float)
| JStr (s : string)
| JArr (l : list json)
| JObj (m : gmap string json).

(** [q[k]] for a string [k]. *)
Definition getitem (q : json) (k : string) : exn + json :=
  match q with
  | JObj m =>
      match m !! k with
      | Some v => inr v
      | None => inl (KeyError k)
      end
  | JArr _ => inl (TypeError "list indices must be integers or slices, not str")
  | JStr _ => inl (TypeError "string indices must be integers, not 'str'")
  | JNull => inl (TypeError "'NoneType' object is not subscriptable")
  | JBool _ => inl (TypeError "'bool' object is not subscriptable")
  | JInt _ => inl (TypeError "'int' object is not subscriptable")
  | JFloat _ => inl (TypeError "'float' object is not subscriptable")
  end.

(** The body has a value under key [k]. *)
Definition has_key (q : json) (k : string) : bool :=
  match q with
  | JObj m => bool_decide (is_Some (m !! k))
  | _ => false
  end.

(** ** The HTTP response *)

Record Response := {
  status_code : Z;
  (** the outcome of [response.json()]: the parsed body, or the decoding
      error it raises *)
  json_body : exn + json
}.

(** ** The SDK's objects *)

(** [AdapterInstance]: the configuration the host supplies. *)
Record AdapterInstance := {
  identifiers : gmap string string;
  credentials : gmap string string
}.

(** Both getters return Python's [None] for a key that is not there. *)
Definition get_identifier_value (ai : AdapterInstance) (k : string)
  : option string := identifiers ai !! k.
Definition get_credential_value (ai : AdapterInstance) (k : string)
  : option string := credentials ai !! k.

(** [f"{v}"] for an optional string. *)
Definition fmt (v : option string) : string :=
  match v with
  | Some s => s
  | None => "None"
  end.

(** [TestResult] *)
Record TestResult := { test_error_message : option string }.

Definition new_TestResult : TestResult := {| test_error_message := None |}.
Definition test_with_error (msg : string) (r : TestResult) : TestResult :=
  {| test_error_message := Some msg |}.

(** [Metric(key, value)]: the value is whatever Python object was read
    from the response. *)
Record Metric := { metric_key : string; metric_value : json }.

(** [Key]: what identifies an object of a collection. *)
Record Key := {
  adapter_kind : string;
  object_kind : string;
  name : option string
}.

#[global] Instance Key_eq_dec : EqDecision Key.
Proof. solve_decision. Defined.

#[global] Instance Key_countable : Countable Key.
Proof.
  refine (inj_countable'
            (fun k => (adapter_kind k, object_kind k, name k))
            (fun t => Build_Key t.1.1 t.1.2 t.2) _).
  by intros [].
Defined.

(** [Object] *)
Record Object := { object_key : Key; metrics : list Metric }.

Definition add_metric (m : Metric) (o : Object) : Object :=
  {| object_key := object_key o; metrics := metrics o ++ [m] |}.

(** [CollectResult]: a dictionary of objects by key, and an error message.
    An [Object] handed out by [object] is the one stored in the
    dictionary, so a variable bound to it is modelled by its key. *)
Record CollectResult := {
  objects : gmap Key Object;
  collect_error_message : option string
}.

Definition new_CollectResult : CollectResult :=
  {| objects := ∅; collect_error_message := None |}.

(** [result.object(adapter_kind, object_kind, name)]: the object of that
    key, created and stored when it is not there yet. *)
Definition result_object (ak ok : string) (nm : option string)
    (r : CollectResult) : Key * CollectResult :=
  let k := {| adapter_kind := ak; object_kind := ok; name := nm |} in
  match objects r !! k with
  | Some _ => (k, r)
  | None =>
      (k, {| objects := <[k := {| object_key := k; metrics := [] |}]> (objects r);
             collect_error_message := collect_error_message r |})
  end.

(** [obj.add_metric(m)] for the object stored under [k]. *)
Definition object_add_metric (k : Key) (m : Metric) (r : CollectResult)
  : CollectResult :=
  {| objects := alter (add_metric m) k (objects r);
     collect_error_message := collect_error_message r |}.

Definition collect_with_error (msg : string) (r : CollectResult)
  : CollectResult :=
  {| objects := objects r; collect_error_message := Some msg |}.

(** [EndpointResult] *)
Record EndpointResult := { endpoints : list string }.

Definition new_EndpointResult : EndpointResult := {| endpoints := [] |}.

(** *** What a [CollectResult] is reported as *)

(** [metric.get_json()]: the key and the value as a number.  (The time
    stamp the SDK adds is left out.) *)
Record MetricJson := { metric_json_key : string; number_value : float }.

(** [obj.get_json()] *)
Record ObjectJson := {
  object_json_key : Key;
  object_json_metrics : list MetricJson
}.

(** [result.get_json()]: once an error message is set, the message and
    nothing else; otherwise the objects. *)
Inductive CollectJson :=
| ErrorJson (error_message : string)
| ResultJson (result : list ObjectJson).

(** The objects a report carries. *)
Definition reported_objects (j : CollectJson) : list ObjectJson :=
  match j with
  | ErrorJson _ => []
  | ResultJson result => result
  end.

(** [float(z)] for an integer: the nearest double, ties to even, and an
    [OverflowError] when that is out of range. *)
Definition float_of_int (z : Z) : exn + float :=
  match binary_normalize prec emax z 0 false with
  | S754_infinity _ => inl (OverflowError "int too large to convert to float")
  | nearest => inr (SF2Prim nearest)
  end.

(** [[f(x) for x in l]]: the values in order, or the first exception. *)
Fixpoint for_each {A B : Type} (f : A -> exn + B) (l : list A)
  : exn + list B :=
  match l with
  | [] => inr []
  | x :: l' =>
      match f x with
      | inl e => inl e
      | inr y =>
          match for_each f l' with
          | inl e => inl e
          | inr ys => inr (y :: ys)
          end
      end
  end.

(** *** The adapter definition *)

Inductive parameter_type := StringParameter | IntParameter.

Inductive default_value :=
| NoDefault
| IntDefault (z : Z)
| StringDefault (s : string).

Record AdapterParameter := {
  parameter_key : string;
  parameter_label : string;
  parameter_description : string;
  parameter_kind : parameter_type;
  parameter_default : default_value;
  parameter_required : bool;
  parameter_advanced : bool
}.

Record CredentialParameter := {
  credential_parameter_key : string;
  credential_parameter_label : string;
  (** a password parameter: the host stores its value as a secret *)
  credential_parameter_password : bool
}.

Record CredentialType := {
  credential_key : string;
  credential_label : string;
  credential_parameters : list CredentialParameter
}.

Record Attribute := {
  attribute_key : string;
  attribute_label : string;
  attribute_unit : option string;
  (** [false] for a metric, [true] for a property *)
  attribute_is_property : bool
}.

Record ObjectType := {
  object_type_key : string;
  object_type_label : string;
  attributes : list Attribute
}.

(** [AdapterDefinition]: credential types and object types are
    dictionaries by key, and the value [define_credential_type] or
    [define_object_type] hands out is the stored one: it is modelled by
    its key. *)
Record AdapterDefinition := {
  definition_key : string;
  definition_label : string;
  parameters : list AdapterParameter;
  credential_types : gmap string CredentialType;
  object_types : gmap string ObjectType
}.

(** ** The world around one run *)

(** What [send_results] writes to the output file. *)
Inductive Payload :=
| TestPayload (r : TestResult)
| CollectPayload (j : CollectJson)
| EndpointPayload (r : EndpointResult)
| DefinitionPayload (d : AdapterDefinition).

(** What a run changes: the output file, and the URLs it asked for. *)
Record World := {
  out_file : option Payload;
  requested : list string
}.

Definition initial_world : World := {| out_file := None; requested := [] |}.

(** What a run finds: the input file as [AdapterInstance.from_input()]
    reads it, the provider behind [requests.get], and whether the output
    file can be written ([write_fault] is the exception that opening or
    writing it meets). *)
Record Env := {
  from_input : exn + AdapterInstance;
  http_get : string -> exn + Response;
  write_fault : option exn
}.

(** ** The program *)

Section Adapter.
Open Scope py_scope.

(** [constants.py] is not among the sources: its two constants are
    parameters. *)
Variables ADAPTER_KIND ADAPTER_NAME : string.

(** The SDK checks each key it is given when something is defined, and
    raises for a key it rejects.  The check is the SDK's, not the
    adapter's: it is a parameter. *)
Variable valid_key : string -> bool.

(** [float(s)] for a text [s], as the SDK applies it to a metric value
    that is a text: the number Python reads in it, or the exception it
    raises.  Reading numbers is the interpreter's business: it is a
    parameter. *)
Variable text_float : string -> exn + float.

Variable env : Env.

(** *** The SDK's report of a [CollectResult] *)

(** [float(v)], which [metric.get_json()] applies to the value. *)
Definition to_float (v : json) : exn + float :=
  match v with
  | JFloat f => inr f
  | JInt z => float_of_int z
  | JBool b => inr (if b then 1 else 0)%float
  | JStr s => text_float s
  | JNull =>
      inl (TypeError
             "float() argument must be a string or a real number, not 'NoneType'")
  | JArr _ =>
      inl (TypeError
             "float() argument must be a string or a real number, not 'list'")
  | JObj _ =>
      inl (TypeError
             "float() argument must be a string or a real number, not 'dict'")
  end.

Definition Metric_get_json (m : Metric) : exn + MetricJson :=
  match to_float (metric_value m) with
  | inl e => inl e
  | inr f => inr {| metric_json_key := metric_key m; number_value := f |}
  end.

Definition Object_get_json (o : Object) : exn + ObjectJson :=
  match for_each Metric_get_json (metrics o) with
  | inl e => inl e
  | inr ms => inr {| object_json_key := object_key o;
                     object_json_metrics := ms |}
  end.

(** [result.get_json()].  A result with an error message is reported as
    that message alone, and its objects are not looked at. *)
Definition CollectResult_get_json (r : CollectResult) : exn + CollectJson :=
  match collect_error_message r with
  | Some msg => inr (ErrorJson msg)
  | None =>
      match for_each Object_get_json (snd <$> map_to_list (objects r)) with
      | inl e => inl e
      | inr result => inr (ResultJson result)
      end
  end.

(** *** The SDK's calls that define things *)

Definition validate_key (k : string) : exn + unit :=
  if valid_key k then inr tt else inl (KeyException k).

(** [AdapterDefinition(key, label)] *)
Definition new_AdapterDefinition (k label : string)
  : exn + AdapterDefinition :=
  match validate_key k with
  | inl e => inl e
  | inr _ =>
      inr {| definition_key := k; definition_label := label;
             parameters := []; credential_types := ∅; object_types := ∅ |}
  end.

(** [definition.define_credential_type(key, label)] *)
Definition define_credential_type (k label : string) (d : AdapterDefinition)
  : exn + (string * AdapterDefinition) :=
  match validate_key k with
  | inl e => inl e
  | inr _ =>
      let c := {| credential_key := k; credential_label := label;
                  credential_parameters := [] |} in
      inr (k, {| definition_key := definition_key d;
                 definition_label := definition_label d;
                 parameters := parameters d;
                 credential_types := <[k := c]> (credential_types d);
                 object_types := object_types d |})
  end.

Definition add_credential_parameter (p : CredentialParameter)
    (c : CredentialType) : CredentialType :=
  {| credential_key := credential_key c;
     credential_label := credential_label c;
     credential_parameters := credential_parameters c ++ [p] |}.

(** [credential.define_password_parameter(key, label)] *)
Definition define_password_parameter (credential k label : string)
    (d : AdapterDefinition) : exn + AdapterDefinition :=
  match validate_key k with
  | inl e => inl e
  | inr _ =>
      let p := {| credential_parameter_key := k;
                  credential_parameter_label := label;
                  credential_parameter_password := true |} in
      inr {| definition_key := definition_key d;
             definition_label := definition_label d;
             parameters := parameters d;
             credential_types :=
               alter (add_credential_parameter p) credential
                     (credential_types d);
             object_types := object_types d |}
  end.

Definition add_parameter (p : AdapterParameter) (d : AdapterDefinition)
  : exn + AdapterDefinition :=
  match validate_key (parameter_key p) with
  | inl e => inl e
  | inr _ =>
      inr {| definition_key := definition_key d;
             definition_label := definition_label d;
             parameters := parameters d ++ [p];
             credential_types := credential_types d;
             object_types := object_types d |}
  end.

(** [definition.define_string_parameter(key, label=, description=,
    required=)]: no default value, not advanced. *)
Definition define_string_parameter (k label description : string)
    (required : bool) : AdapterDefinition -> exn + AdapterDefinition :=
  add_parameter
    {| parameter_key := k; parameter_label := label;
       parameter_description := description;
       parameter_kind := StringParameter;
       parameter_default := NoDefault;
       parameter_required := required;
       parameter_advanced := false |}.

(** [definition.define_int_parameter(key, label=, description=,
    required=, advanced=, default=)] *)
Definition define_int_parameter (k label description : string)
    (required advanced : bool) (default : Z)
  : AdapterDefinition -> exn + AdapterDefinition :=
  add_parameter
    {| parameter_key := k; parameter_label := label;
       parameter_description := description;
       parameter_kind := IntParameter;
       parameter_default := IntDefault default;
       parameter_required := required;
       parameter_advanced := advanced |}.

(** [definition.define_object_type(key, label)] *)
Definition define_object_type (k label : string) (d : AdapterDefinition)
  : exn + (string * AdapterDefinition) :=
  match validate_key k with
  | inl e => inl e
  | inr _ =>
      let o := {| object_type_key := k; object_type_label := label;
                  attributes := [] |} in
      inr (k, {| definition_key := definition_key d;
                 definition_label := definition_label d;
                 parameters := parameters d;
                 credential_types := credential_types d;
                 object_types := <[k := o]> (object_types d) |})
  end.

Definition add_attribute (a : Attribute) (o : ObjectType) : ObjectType :=
  {| object_type_key := object_type_key o;
     object_type_label := object_type_label o;
     attributes := attributes o ++ [a] |}.

(** [object_type.define_metric(key, label, unit)] *)
Definition define_metric (object_type k label : string)
    (unit : option string) (d : AdapterDefinition)
  : exn + AdapterDefinition :=
  match validate_key k with
  | inl e => inl e
  | inr _ =>
      let a := {| attribute_key := k; attribute_label := label;
                  attribute_unit := unit;
                  attribute_is_property := false |} in
      inr {| definition_key := definition_key d;
             definition_label := definition_label d;
             parameters := parameters d;
             credential_types := credential_types d;
             object_types :=
               alter (add_attribute a) object_type (object_types d) |}
  end.

(** *** [get_adapter_definition] *)

Definition get_adapter_definition {R' : Type}
  : Py.t World R' (option AdapterDefinition) :=
  Py.call tt
    (Py.try_except
       (definition <- Py.lift (new_AdapterDefinition ADAPTER_KIND ADAPTER_NAME) ;;
        c <- Py.lift (define_credential_type "credential" "API Key" definition) ;;
        let '(credential, definition) := c in
        definition <- Py.lift
          (define_password_parameter credential "apiKey" "API Secret Key"
             definition) ;;
        definition <- Py.lift
          (define_string_parameter "ticker" "Ticker" "Stock ticker symbol"
             true definition) ;;
        definition <- Py.lift
          (define_int_parameter "container_memory_limit"
             "Adapter Memory Limit (MB)"
             ("Sets the maximum amount of memory VMware Aria Operations can "
              ++ "allocate to the container running this adapter instance.")
             true true 1024 definition) ;;
        o <- Py.lift (define_object_type "quote" "Quote" definition) ;;
        let '(quote, definition) := o in
        definition <- Py.lift (define_metric quote "bid" "bid" None definition) ;;
        definition <- Py.lift (define_metric quote "ask" "ask" None definition) ;;
        Py.stop (Return definition))
       (fun e => (* logger.error(e); the function ends without a return *)
          Py.ret tt)).

(** *** The request both operations make *)

Definition quote_url (ticker api_key : option string) : string :=
  "https://api.finage.co.uk/last/stock/" ++ fmt ticker
    ++ "?apikey=" ++ fmt api_key.

(** [requests.get(url)] *)
Definition requests_get {R : Type} (url : string) : Py.t World R Response :=
  fun w =>
    let w' := {| out_file := out_file w; requested := requested w ++ [url] |} in
    match http_get env url with
    | inr response => (Normal response, w')
    | inl e => (Abrupt (Raise e), w')
    end.

(** *** [test] *)

Definition test {R' : Type} (adapter_instance : AdapterInstance)
  : Py.t World R' (option TestResult) :=
  Py.call new_TestResult
    (Py.try_finally
       (Py.try_except
          (let ticker := get_identifier_value adapter_instance "ticker" in
           let api_key := get_credential_value adapter_instance "apiKey" in
           response <- Py.in_world (requests_get (quote_url ticker api_key)) ;;
           if negb (status_code response =? 200)
           then Py.in_locals
                  (Py.modify (test_with_error "Error connecting to market"))
           else Py.ret tt)
          (fun e =>
             (* logger.error(...); logger.exception(e) *)
             Py.in_locals
               (Py.modify
                  (test_with_error
                     ("Unexpected connection test error: " ++ repr e)))))
       ((* logger.debug(...) *)
        result <- Py.in_locals Py.get ;;
        Py.stop (Return result))).

(** *** [collect] *)

Definition collect {R' : Type} (adapter_instance : AdapterInstance)
  : Py.t World R' (option CollectResult) :=
  Py.call new_CollectResult
    (Py.try_finally
       (Py.try_except
          (let ticker := get_identifier_value adapter_instance "ticker" in
           let api_key := get_credential_value adapter_instance "apiKey" in
           response <- Py.in_world (requests_get (quote_url ticker api_key)) ;;
           q <- Py.lift (json_body response) ;;
           quote <- Py.in_locals
             (Py.state (result_object ADAPTER_KIND "Quote" ticker)) ;;
           v <- Py.lift (getitem q "bid") ;;
           let bid := {| metric_key := "bid"; metric_value := v |} in
           v <- Py.lift (getitem q "ask") ;;
           let ask := {| metric_key := "ask"; metric_value := v |} in
           Py.in_locals (Py.modify (object_add_metric quote bid)) ;;
           Py.in_locals (Py.modify (object_add_metric quote ask)))
          (fun e =>
             (* logger.error(...); logger.exception(e) *)
             Py.in_locals
               (Py.modify
                  (collect_with_error
                     ("Unexpected collection error: " ++ repr e)))))
       ((* logger.debug(f"... {result.get_json()}") *)
        result <- Py.in_locals Py.get ;;
        Py.lift (CollectResult_get_json result) ;;
        Py.stop (Return result))).

(** *** [get_endpoints] *)

Definition get_endpoints {R' : Type} (adapter_instance : AdapterInstance)
  : Py.t World R' (option EndpointResult) :=
  Py.call new_EndpointResult
    (result <- Py.in_locals (W := World) Py.get ;;
     Py.stop (A := unit) (Return result)).

(** *** [main] *)

(** [sys.exit(code)] *)
Definition sys_exit {S R A : Type} (code : Z) : Py.t S R A :=
  Py.stop (Exit code).

(** [x.send_results()], where [x] is what the call before returned and
    [get_json] its report: the report is computed and written to the
    output file.  An exception met while writing is logged by the SDK and
    goes no further.  On [None] the attribute lookup raises. *)
Definition send_results {T R : Type} (get_json : T -> exn + Payload)
    (x : option T) : Py.t World R unit :=
  match x with
  | None =>
      Py.stop
        (Raise (AttributeError
                  "'NoneType' object has no attribute 'send_results'"))
  | Some r =>
      payload <- Py.lift (get_json r) ;;
      match write_fault env with
      | Some e => (* logged *) Py.ret tt
      | None =>
          Py.modify
            (fun w => {| out_file := Some payload;
                         requested := requested w |})
      end
  end.

(** The reports of the four kinds of result.  Only that of a
    [CollectResult] can raise. *)
Definition test_payload (r : TestResult) : exn + Payload :=
  inr (TestPayload r).
Definition endpoint_payload (r : EndpointResult) : exn + Payload :=
  inr (EndpointPayload r).
Definition definition_payload (d : AdapterDefinition) : exn + Payload :=
  inr (DefinitionPayload d).
Definition collect_payload (r : CollectResult) : exn + Payload :=
  match CollectResult_get_json r with
  | inl e => inl e
  | inr j => inr (CollectPayload j)
  end.

(** [argv[0]] *)
Definition first_argument {S R : Type} (argv : list string)
  : Py.t S R string :=
  match argv with
  | a :: _ => Py.ret a
  | [] => Py.stop (Raise (Exn "IndexError" "'list index out of range'"))
  end.

Definition main (argv : list string) : Py.t World unit unit :=
  (* logging.setup_logging(...); logging.rotate(); logger.info(...) *)
  (if negb (length argv =? 3)%nat
   then (* logger.error(...) *) sys_exit 1
   else Py.ret tt) ;;
  method <- first_argument argv ;;
  Py.try_finally
    (if String.eqb method "test" then
       adapter_instance <- Py.lift (from_input env) ;;
       result <- test adapter_instance ;;
       send_results test_payload result
     else if String.eqb method "endpoint_urls" then
       adapter_instance <- Py.lift (from_input env) ;;
       result <- get_endpoints adapter_instance ;;
       send_results endpoint_payload result
     else if String.eqb method "collect" then
       adapter_instance <- Py.lift (from_input env) ;;
       result <- collect adapter_instance ;;
       send_results collect_payload result
     else if String.eqb method "adapter_definition" then
       result <- get_adapter_definition ;;
       match result with
       | Some definition => send_results definition_payload (Some definition)
       | None => (* logger.info(...) *) sys_exit 1
       end
     else
       (* logger.error(...) *) sys_exit 1)
    ((* logger.info(Timer.graph()) *)
     sys_exit 0).

(** The exit status of the process that ran [main(sys.argv[1:])]. *)
Definition exit_status (c : completion unit unit) : Z :=
  match c with
  | Normal _ => 0
  | Abrupt (Return _) => 0
  | Abrupt (Raise _) => 1
  | Abrupt (Exit code) => code
  end.

(** One run of the program from a fresh world: the exit status, and the
    world it leaves. *)
Definition run (argv : list string) : Z * World :=
  let '(c, w) := main argv initial_world in (exit_status c, w).
End Adapter.

(** ** Sample runs *)

Definition abc_instance : AdapterInstance :=
  {| identifiers := {[ "ticker" := "ABC" ]};
     credentials := {[ "apiKey" := "k3y" ]} |}.

Definition quote_body : json :=
  JObj {[ "bid" := JFloat 10.5; "ask" := JFloat 10.7 ]}.

(** A provider that answers every request with [response]. *)
Definition answering (response : Response) : Env :=
  {| from_input := inr abc_instance;
     http_get := fun _ => inr response;
     write_fault := None |}.

(** A provider that cannot be reached. *)
Definition unreachable : Env :=
  {| from_input := inr abc_instance;
     http_get := fun _ => inl (Exn "ConnectionError" "'no route to host'");
     write_fault := None |}.

(** [float] on text, for sample runs in which no text reads as a number:
    every text is refused, the way Python refuses ["n/a"]. *)
Definition no_number (s : string) : exn + float :=
  inl (Exn "ValueError"
           (str_repr ("could not convert string to float: " ++ str_repr s))).

(** The SDK's check taken to reject exactly the empty key. *)
Definition nonempty_key (k : string) : bool := negb (String.eqb k "").

(** The keys [get_adapter_definition] defines things under. *)
Definition defined_keys : list string :=
  ["credential"; "apiKey"; "ticker"; "container_memory_limit";
   "quote"; "bid"; "ask"].

Definition is_required_string (p : AdapterParameter) : bool :=
  match parameter_kind p with
  | StringParameter => parameter_required p
  | IntParameter => false
  end.

Definition is_advanced_int (p : AdapterParameter) : bool :=
  match parameter_kind p with
  | IntParameter => parameter_advanced p
  | StringParameter => false
  end.

(** The method names [main] knows. *)
Definition methods : list string :=
  ["test"; "endpoint_urls"; "collect"; "adapter_definition"].

(** The key of the one object [collect] reports. *)
Definition quote_key (kind : string) (ticker : option string) : Key :=
  {| adapter_kind := kind; object_kind := "Quote"; name := ticker |}.

(** The URL both operations ask for, for a given adapter instance. *)
Definition instance_url (ai : AdapterInstance) : string :=
  quote_url (get_identifier_value ai "ticker")
            (get_credential_value ai "apiKey").

(** The world after one request for [url]. *)
Definition asked (url : string) (w : World) : World :=
  {| out_file := out_file w; requested := requested w ++ [url] |}.

(** The world after [payload] has been written to the output file. *)
Definition written (payload : Payload) (w : World) : World :=
  {| out_file := Some payload; requested := requested w |}.

(** The method whose result a payload is. *)
Definition payload_method (payload : Payload) : string :=
  match payload with
  | TestPayload _ => "test"
  | CollectPayload _ => "collect"
  | EndpointPayload _ => "endpoint_urls"
  | DefinitionPayload _ => "adapter_definition"
  end.

(** The three methods that read the input file. *)
Definition input_methods : list string := ["test"; "endpoint_urls"; "collect"].

(** An input file that cannot be read, in front of a provider that would
    answer. *)
Definition unreadable_input : Env :=
  {| from_input := inl (Exn "FileNotFoundError" "'in.json'");
     http_get := fun _ =>
       inr {| status_code := 200; json_body := inr quote_body |};
     write_fault := None |}.

(** The definition [get_adapter_definition] builds, written out. *)
Definition quote_definition (kind label : string) : AdapterDefinition :=
  {| definition_key := kind;
     definition_label := label;
     parameters :=
       [ {| parameter_key := "ticker"; parameter_label := "Ticker";
            parameter_description := "Stock ticker symbol";
            parameter_kind := StringParameter;
            parameter_default := NoDefault;
            parameter_required := true;
            parameter_advanced := false |};
         {| parameter_key := "container_memory_limit";
            parameter_label := "Adapter Memory Limit (MB)";
            parameter_description :=
              "Sets the maximum amount of memory VMware Aria Operations can "
              ++ "allocate to the container running this adapter instance.";
            parameter_kind := IntParameter;
            parameter_default := IntDefault 1024;
            parameter_required := true;
            parameter_advanced := true |} ];
     credential_types :=
       {[ "credential" :=
            {| credential_key := "credential";
               credential_label := "API Key";
               credential_parameters :=
                 [ {| credential_parameter_key := "apiKey";
                      credential_parameter_label := "API Secret Key";
                      credential_parameter_password := true |} ] |} ]};
     object_types :=
       {[ "quote" :=
            {| object_type_key := "quote";
               object_type_label := "Quote";
               attributes :=
                 [ {| attribute_key := "bid"; attribute_label := "bid";
                      attribute_unit := None;
                      attribute_is_property := false |};
                   {| attribute_key := "ask"; attribute_label := "ask";
                      attribute_unit := None;
                      attribute_is_property := false |} ] |} ]} |}.

(** * Properties *)

(** ** Control flow *)

Lemma try_finally_exit {S R A} (body : Py.t S R A) (code : Z) (s : S) :
  exists s', Py.try_finally body (sys_exit code) s = (Abrupt (Exit code), s').
Proof.
  unfold Py.try_finally, sys_exit, Py.stop.
  destruct (body s) as [c s1]. by exists s1.
Qed.

Lemma try_finally_return {S R A} (body : Py.t S R A) (f : S -> R) (s : S) :
  exists s',
    Py.try_finally body (Py.bind Py.get (fun x => Py.stop (Return (f x)))) s
    = (Abrupt (Return (f s')), s').
Proof.
  unfold Py.try_finally, Py.bind, Py.get, Py.stop.
  destruct (body s) as [c s1]. by exists s1.
Qed.

Lemma prefixed_nonempty (a : Ascii.ascii) (p s : string) : String a p ++ s <> "".
Proof. done. Qed.

Lemma getitem_missing (q : json) (k : string) :
  has_key q k = false -> exists e, getitem q k = inl e.
Proof.
  destruct q as [| | | | | |m]; simpl; eauto.
  intros H. apply bool_decide_eq_false in H.
  destruct (m !! k) as [v|]; [|eauto].
  destruct H. eauto.
Qed.

(** ** [test] *)

(** What [test] leaves in its result, by what the request gave. *)
Lemma test_returns {R'} (env : Env) (ai : AdapterInstance) (w : World) :
  exists w',
    test (R' := R') env ai w
    = (Normal
         (Some
            match http_get env (quote_url (get_identifier_value ai "ticker")
                                          (get_credential_value ai "apiKey")) with
            | inr response =>
                if status_code response =? 200 then new_TestResult
                else test_with_error "Error connecting to market" new_TestResult
            | inl e =>
                test_with_error ("Unexpected connection test error: " ++ repr e)
                                new_TestResult
            end), w').
Proof.
  unfold test, Py.call, Py.try_finally, Py.try_except, Py.bind, Py.in_world,
    Py.in_locals, requests_get, Py.get, Py.stop, Py.modify, Py.ret.
  destruct (http_get env _) as [e|response]; simpl.
  - eauto.
  - destruct (status_code response =? 200); simpl; eauto.
Qed.

(** C1: when the provider answers the request, [test] returns a result
    without an error message exactly when the status code of the answer
    is 200; the body of the answer plays no part. *)
Theorem test_success_iff_status_200
    (env : Env) (ai : AdapterInstance) (w : World) (response : Response) :
  http_get env (quote_url (get_identifier_value ai "ticker")
                          (get_credential_value ai "apiKey"))
  = inr response ->
  exists r w',
    test (R' := unit) env ai w = (Normal (Some r), w') /\
    (test_error_message r = None <-> status_code response = 200).
Proof.
  intros Hget.
  destruct (test_returns (R' := unit) env ai w) as [w' Ht].
  rewrite Hget in Ht. eexists _, w'. split; [exact Ht|].
  destruct (Z.eqb_spec (status_code response) 200) as [E|E]; simpl.
  - done.
  - split; [discriminate | done].
Qed.

(** C7: [test] always hands a [TestResult] back to its caller, whether the
    request raised or not; when the request raised, or was answered with a
    status other than 200, the result carries a non-empty error message. *)
Theorem test_never_raises
    (env : Env) (ai : AdapterInstance) (w : World) :
  exists r w',
    test (R' := unit) env ai w = (Normal (Some r), w') /\
    match http_get env (quote_url (get_identifier_value ai "ticker")
                                  (get_credential_value ai "apiKey")) with
    | inl e => exists msg, test_error_message r = Some msg /\ msg <> ""
    | inr response =>
        status_code response <> 200 ->
        exists msg, test_error_message r = Some msg /\ msg <> ""
    end.
Proof.
  destruct (test_returns (R' := unit) env ai w) as [w' Ht].
  eexists _, w'. split; [exact Ht|].
  destruct (http_get env _) as [e|response]; simpl.
  - eexists. split; [done|]. apply prefixed_nonempty.
  - intros Hs. destruct (Z.eqb_spec (status_code response) 200); [done|].
    simpl. eexists. split; [done|]. discriminate.
Qed.

(** ** [collect] *)

Lemma quote_body_bid : getitem quote_body "bid" = inr (JFloat 10.5).
Proof. reflexivity. Qed.

Lemma quote_body_ask : getitem quote_body "ask" = inr (JFloat 10.7).
Proof. reflexivity. Qed.

(** The object [collect] asks its fresh result for is created there. *)
Lemma result_object_new (kind : string) (ticker : option string) :
  result_object kind "Quote" ticker new_CollectResult
  = (quote_key kind ticker,
     {| objects := {[ quote_key kind ticker :=
                        {| object_key := quote_key kind ticker;
                           metrics := [] |} ]};
        collect_error_message := None |}).
Proof.
  unfold result_object, new_CollectResult, quote_key; simpl.
  by rewrite lookup_empty, insert_empty.
Qed.

(** A result with an error message is reported as the message alone. *)
Lemma get_json_error (tf : string -> exn + float) (r : CollectResult)
    (msg : string) :
  collect_error_message r = Some msg ->
  CollectResult_get_json tf r = inr (ErrorJson msg).
Proof. unfold CollectResult_get_json. by intros ->. Qed.

(** The report of a result that holds one object with the two metrics:
    the two values as numbers, or the exception of the first value that
    is not one. *)
Lemma get_json_quote (tf : string -> exn + float) (k : Key) (b a : json) :
  CollectResult_get_json tf
    {| objects :=
         {[ k := {| object_key := k;
                    metrics := [ {| metric_key := "bid"; metric_value := b |};
                                 {| metric_key := "ask"; metric_value := a |} ] |} ]};
       collect_error_message := None |}
  = match to_float tf b, to_float tf a with
    | inr fb, inr fa =>
        inr (ResultJson
               [ {| object_json_key := k;
                    object_json_metrics :=
                      [ {| metric_json_key := "bid"; number_value := fb |};
                        {| metric_json_key := "ask"; number_value := fa |} ] |} ])
    | inl e, _ | inr _, inl e => inl e
    end.
Proof.
  unfold CollectResult_get_json; simpl.
  rewrite map_to_list_singleton; simpl.
  unfold Object_get_json, Metric_get_json; simpl.
  destruct (to_float tf b) as [e|fb]; [done|].
  by destruct (to_float tf a) as [e|fa].
Qed.

(** What one call of [collect] does, in full: the world after it has one
    more request; a fault before the fields are read gives a result with
    an error message; once both fields are read the result holds the
    quote, and is returned when its report can be computed, while the
    exception of the report leaves [collect] otherwise. *)
Lemma collect_run {R'} (kind : string) (tf : string -> exn + float)
    (env : Env) (ai : AdapterInstance) (w : World) :
  let k := quote_key kind (get_identifier_value ai "ticker") in
  let failed (objs : gmap Key Object) (e : exn) :=
    {| objects := objs;
       collect_error_message :=
         Some ("Unexpected collection error: " ++ repr e) |} in
  let created := {[ k := {| object_key := k; metrics := [] |} ]} in
  collect (R' := R') kind tf env ai w
  = (match http_get env (instance_url ai) with
     | inl e => Normal (Some (failed ∅ e))
     | inr response =>
         match json_body response with
         | inl e => Normal (Some (failed ∅ e))
         | inr q =>
             match getitem q "bid", getitem q "ask" with
             | inr b, inr a =>
                 match to_float tf b, to_float tf a with
                 | inr _, inr _ =>
                     Normal
                       (Some
                          {| objects :=
                               {[ k := {| object_key := k;
                                          metrics :=
                                            [ {| metric_key := "bid";
                                                 metric_value := b |};
                                              {| metric_key := "ask";
                                                 metric_value := a |} ] |} ]};
                             collect_error_message := None |})
                 | inl e, _ | inr _, inl e => Abrupt (Raise e)
                 end
             | inl e, _ | inr _, inl e => Normal (Some (failed created e))
             end
         end
     end,
     asked (instance_url ai) w).
Proof.
  intros k failed created. subst k failed created.
  unfold collect, Py.call, Py.try_finally, Py.try_except, Py.bind, Py.in_world,
    Py.in_locals, requests_get, Py.get, Py.stop, Py.modify, Py.ret, Py.state,
    Py.lift, instance_url, asked.
  destruct (http_get env _) as [e|response]; simpl; [done|].
  destruct (json_body response) as [e|q]; simpl; [done|].
  rewrite result_object_new.
  destruct (getitem q "bid") as [e|b]; [done|].
  destruct (getitem q "ask") as [e|a]; [done|].
  unfold object_add_metric; cbn -[CollectResult_get_json to_float quote_key].
  rewrite !alter_singleton_eq.
  unfold add_metric; cbn [object_key metrics app].
  rewrite get_json_quote.
  destruct (to_float tf b) as [e|fb]; [done|].
  by destruct (to_float tf a) as [e|fa].
Qed.

(** C2: for the ticker ABC, when the request is answered with the body
    [{"bid": 10.5, "ask": 10.7}], [collect] returns a result without an
    error whose only object is the Quote named ABC, with the two metrics
    bid = 10.5 and ask = 10.7. *)
Theorem collect_quote_ABC
    (kind : string) (tf : string -> exn + float) (env : Env)
    (ai : AdapterInstance) (w : World) (response : Response) :
  get_identifier_value ai "ticker" = Some "ABC" ->
  http_get env (quote_url (Some "ABC") (get_credential_value ai "apiKey"))
  = inr response ->
  json_body response = inr quote_body ->
  exists r w' o,
    collect (R' := unit) kind tf env ai w = (Normal (Some r), w') /\
    collect_error_message r = None /\
    map_to_list (objects r) = [(quote_key kind (Some "ABC"), o)] /\
    object_kind (object_key o) = "Quote" /\
    name (object_key o) = Some "ABC" /\
    metrics o = [ {| metric_key := "bid"; metric_value := JFloat 10.5 |};
                  {| metric_key := "ask"; metric_value := JFloat 10.7 |} ].
Proof.
  intros Hticker Hget Hjson.
  pose proof (collect_run (R' := unit) kind tf env ai w) as Hc. simpl in Hc.
  unfold instance_url in Hc.
  rewrite Hticker, Hget, Hjson, quote_body_bid, quote_body_ask in Hc.
  simpl in Hc.
  eexists _, _, _. split; [exact Hc|]. simpl.
  split; [done|]. split; [apply map_to_list_singleton|]. done.
Qed.

(** C3: [collect] never looks at the status code.  An answer with status
    500 that carries a well-formed quote gives a result without an error,
    where [test] reports an error for the same answer. *)
Theorem collect_ignores_status
    (kind : string) (tf : string -> exn + float) (w : World) :
  let env := answering {| status_code := 500; json_body := inr quote_body |} in
  exists r w' r' w'',
    collect (R' := unit) kind tf env abc_instance w = (Normal (Some r), w') /\
    collect_error_message r = None /\
    size (objects r) = 1%nat /\
    test (R' := unit) env abc_instance w = (Normal (Some r'), w'') /\
    test_error_message r' = Some "Error connecting to market".
Proof.
  intros env.
  pose proof (collect_run (R' := unit) kind tf env abc_instance w) as Hc.
  simpl in Hc.
  change (getitem quote_body "bid") with (@inr exn json (JFloat 10.5)) in Hc.
  change (getitem quote_body "ask") with (@inr exn json (JFloat 10.7)) in Hc.
  simpl in Hc.
  destruct (test_returns (R' := unit) env abc_instance w) as [w'' Ht].
  eexists _, _, _, w''. split; [exact Hc|]. simpl.
  split; [done|]. split; [apply map_size_singleton|].
  split; [exact Ht|]. done.
Qed.

(** C4: when the decoded body has no [bid] or no [ask], [collect] returns
    a result with a non-empty error message, and what the result is
    reported as (the [get_json()] that is logged and sent) is that message
    with no object at all. *)
Theorem collect_missing_field
    (kind : string) (tf : string -> exn + float) (env : Env)
    (ai : AdapterInstance) (w : World) (response : Response) (q : json) :
  http_get env (quote_url (get_identifier_value ai "ticker")
                          (get_credential_value ai "apiKey"))
  = inr response ->
  json_body response = inr q ->
  has_key q "bid" = false \/ has_key q "ask" = false ->
  exists r w' msg,
    collect (R' := unit) kind tf env ai w = (Normal (Some r), w') /\
    collect_error_message r = Some msg /\ msg <> "" /\
    CollectResult_get_json tf r = inr (ErrorJson msg) /\
    reported_objects (ErrorJson msg) = [].
Proof.
  intros Hget Hjson Hmiss.
  pose proof (collect_run (R' := unit) kind tf env ai w) as Hc. simpl in Hc.
  unfold instance_url in Hc. rewrite Hget, Hjson in Hc.
  assert (exists e, getitem q "bid" = inl e
                    \/ (exists b, getitem q "bid" = inr b)
                       /\ getitem q "ask" = inl e) as [e He].
  { destruct Hmiss as [H|H]; apply getitem_missing in H as [e He].
    - eauto.
    - destruct (getitem q "bid") as [e'|b] eqn:Hb; eauto. }
  destruct He as [He|[[b Hb] He]].
  - rewrite He in Hc. eexists _, _, _. split; [exact Hc|]. simpl.
    split; [done|]. split; [apply prefixed_nonempty|]. done.
  - rewrite Hb, He in Hc. eexists _, _, _. split; [exact Hc|]. simpl.
    split; [done|]. split; [apply prefixed_nonempty|]. done.
Qed.

(** ** [main] *)

Section Dispatch.
Variables (kind label : string) (valid : string -> bool).
Variables (tf : string -> exn + float) (env : Env).

(** C8: with an argument count other than 3 the process exits with
    status 1, and the world is as it was: nothing was requested and the
    output file was not written. *)
Theorem main_wrong_argument_count (argv : list string) (w : World) :
  length argv <> 3%nat ->
  main kind label valid tf env argv w = (Abrupt (Exit 1), w) /\
  run kind label valid tf env argv = (1, initial_world).
Proof.
  intros Hlen. apply Nat.eqb_neq in Hlen.
  unfold run, main, Py.bind, sys_exit, Py.stop.
  rewrite Hlen. simpl. done.
Qed.

(** C10: with exactly 3 arguments the process exits with status 0,
    whatever the method name, the input file, the provider and the
    output file do: the [finally] block ends in [sys.exit(0)]. *)
Theorem main_three_arguments_exit_0 (argv : list string) :
  length argv = 3%nat ->
  (run kind label valid tf env argv).1 = 0.
Proof.
  intros Hlen.
  destruct argv as [|method rest]; [done|].
  unfold run, main, Py.bind at 1. rewrite Hlen. simpl.
  unfold Py.bind at 1. simpl.
  match goal with
  | |- context [Py.try_finally ?body (sys_exit 0) initial_world] =>
      destruct (try_finally_exit body 0 initial_world) as [w' ->]
  end.
  done.
Qed.

(** A method name that is none of the four: the [else] branch stops with
    [sys.exit(1)], and the [finally] block turns that into [sys.exit(0)];
    the world is untouched. *)
Lemma main_unknown_method (method input output : string) (w : World) :
  ~ In method methods ->
  main kind label valid tf env [method; input; output] w
  = (Abrupt (Exit 0), w).
Proof.
  intros Hnot. simpl in Hnot.
  assert (forall m, method <> m -> String.eqb method m = false) as Hneq
    by (intros m; apply String.eqb_neq).
  unfold main, Py.bind, Py.try_finally, first_argument, Py.ret. simpl.
  rewrite !Hneq by (intros ->; tauto).
  done.
Qed.

(** The same happens when [get_adapter_definition] has returned [None]. *)
Lemma main_no_definition (input output : string) (w w' : World) :
  get_adapter_definition (R' := unit) kind label valid w = (Normal None, w') ->
  main kind label valid tf env ["adapter_definition"; input; output] w
  = (Abrupt (Exit 0), w').
Proof.
  intros Hnone.
  unfold main, Py.bind, Py.try_finally, first_argument, Py.ret. simpl.
  rewrite Hnone. done.
Qed.

(** When the SDK rejects the adapter key, the first statement of
    [get_adapter_definition] raises, the handler logs, and the function
    returns [None]. *)
Lemma get_adapter_definition_rejected {R'} (w : World) :
  valid kind = false ->
  get_adapter_definition (R' := R') kind label valid w = (Normal None, w).
Proof.
  intros Hbad.
  unfold get_adapter_definition, Py.call, Py.try_except, Py.bind, Py.lift,
    new_AdapterDefinition, validate_key.
  rewrite Hbad. done.
Qed.
End Dispatch.

(** C5: an unknown method name reaches [sys.exit(1)] inside the [try]
    block, and the [sys.exit(0)] of the [finally] block replaces it: the
    process exits with status 0. *)
Theorem main_unknown_method_exit_0
    (kind label : string) (valid : string -> bool)
    (tf : string -> exn + float) (env : Env) :
  run kind label valid tf env ["frobnicate"; "in.json"; "out.json"]
  = (0, initial_world).
Proof.
  unfold run. rewrite main_unknown_method; [done|].
  simpl. intros H. repeat destruct H as [H|H]; discriminate || done.
Qed.

(** C6: when the SDK rejects the adapter key, [get_adapter_definition]
    returns [None]; [main] then reaches [sys.exit(1)] inside the [try]
    block, the [finally] block replaces it, and the process exits with
    status 0 without having written the output file. *)
Theorem main_no_definition_exit_0
    (label : string) (tf : string -> exn + float) (env : Env) :
  get_adapter_definition (R' := unit) "" label nonempty_key initial_world
  = (Normal None, initial_world) /\
  run "" label nonempty_key tf env
    ["adapter_definition"; "in.json"; "out.json"]
  = (0, initial_world).
Proof.
  assert (get_adapter_definition (R' := unit) "" label nonempty_key
            initial_world = (Normal None, initial_world)) as Hnone
    by (by apply get_adapter_definition_rejected).
  split; [exact Hnone|].
  unfold run. by rewrite (main_no_definition _ _ _ _ _ _ _ _ _ Hnone).
Qed.

(** ** [get_adapter_definition] *)

(** C9: when the SDK accepts the keys, [get_adapter_definition] returns a
    definition with one credential type holding one password parameter,
    one required string parameter (the ticker), one advanced integer
    parameter whose default is 1024, and one object type whose attributes
    are the two metrics bid and ask. *)
Theorem adapter_definition_shape
    (kind label : string) (valid : string -> bool) (w : World) :
  valid kind = true ->
  Forall (fun k => valid k = true) defined_keys ->
  exists d,
    get_adapter_definition (R' := unit) kind label valid w
    = (Normal (Some d), w) /\
    size (credential_types d) = 1%nat /\
    (exists c p,
        credential_types d !! "credential" = Some c /\
        credential_parameters c = [p] /\
        credential_parameter_key p = "apiKey" /\
        credential_parameter_password p = true) /\
    (exists p,
        List.filter is_required_string (parameters d) = [p] /\
        parameter_key p = "ticker") /\
    (exists p,
        List.filter is_advanced_int (parameters d) = [p] /\
        parameter_default p = IntDefault 1024) /\
    size (object_types d) = 1%nat /\
    (exists o,
        object_types d !! "quote" = Some o /\
        object_type_label o = "Quote" /\
        List.map attribute_key (attributes o) = ["bid"; "ask"] /\
        List.map attribute_is_property (attributes o) = [false; false]).
Proof.
  intros Hkind Hkeys. unfold defined_keys in Hkeys.
  repeat (apply Forall_cons in Hkeys as [? Hkeys]).
  unfold get_adapter_definition, Py.call, Py.try_except, Py.bind, Py.lift,
    new_AdapterDefinition, define_credential_type, define_password_parameter,
    define_string_parameter, define_int_parameter, define_object_type,
    define_metric, add_parameter, validate_key.
  simpl.
  repeat match goal with H : valid _ = true |- _ => rewrite H; clear H end.
  simpl.
  eexists. split; [reflexivity|]. simpl.
  rewrite !insert_empty, !alter_singleton_eq. simpl.
  split; [apply map_size_singleton|].
  split.
  { eexists _, _. split; [apply lookup_singleton_eq|]. done. }
  split; [by eexists|]. split; [by eexists|].
  split; [apply map_size_singleton|].
  eexists. split; [apply lookup_singleton_eq|]. done.
Qed.


(** ** The theorems at sample runs *)

(** C1 at an answer with status 200 whose body is not JSON at all. *)
Lemma test_success_iff_status_200_witness :
  let response :=
    {| status_code := 200;
       json_body := inl (Exn "JSONDecodeError" "'Expecting value'") |} in
  http_get (answering response)
    (quote_url (get_identifier_value abc_instance "ticker")
               (get_credential_value abc_instance "apiKey"))
  = inr response /\
  exists r w',
    test (R' := unit) (answering response) abc_instance initial_world
    = (Normal (Some r), w') /\
    (test_error_message r = None <-> status_code response = 200).
Proof.
  intros response. split; [reflexivity|].
  apply (test_success_iff_status_200 (answering response) abc_instance
           initial_world response).
  reflexivity.
Defined.

(** C2 at the sample instance and adapter kind [StockQuote]. *)
Lemma collect_quote_ABC_witness :
  let response := {| status_code := 200; json_body := inr quote_body |} in
  get_identifier_value abc_instance "ticker" = Some "ABC" /\
  exists r w' o,
    collect (R' := unit) "StockQuote" no_number (answering response)
      abc_instance initial_world
    = (Normal (Some r), w') /\
    collect_error_message r = None /\
    map_to_list (objects r) = [(quote_key "StockQuote" (Some "ABC"), o)] /\
    object_kind (object_key o) = "Quote" /\
    name (object_key o) = Some "ABC" /\
    metrics o = [ {| metric_key := "bid"; metric_value := JFloat 10.5 |};
                  {| metric_key := "ask"; metric_value := JFloat 10.7 |} ].
Proof.
  intros response. split; [reflexivity|].
  apply (collect_quote_ABC "StockQuote" no_number (answering response)
           abc_instance initial_world response); reflexivity.
Defined.

(** C4 at a body that has [bid] but no [ask]. *)
Lemma collect_missing_field_witness :
  let q := JObj {[ "bid" := JFloat 10.5 ]} in
  let response := {| status_code := 200; json_body := inr q |} in
  (has_key q "bid" = false \/ has_key q "ask" = false) /\
  exists r w' msg,
    collect (R' := unit) "StockQuote" no_number (answering response)
      abc_instance initial_world
    = (Normal (Some r), w') /\
    collect_error_message r = Some msg /\ msg <> "" /\
    CollectResult_get_json no_number r = inr (ErrorJson msg) /\
    reported_objects (ErrorJson msg) = [].
Proof.
  intros q response.
  assert (Hmiss : has_key q "bid" = false \/ has_key q "ask" = false)
    by (right; reflexivity).
  split; [exact Hmiss|].
  apply (collect_missing_field "StockQuote" no_number (answering response)
           abc_instance initial_world response q eq_refl eq_refl Hmiss).
Defined.

(** C8 at a call with two arguments. *)
Lemma main_wrong_argument_count_witness :
  length ["test"; "in.json"] <> 3%nat /\
  main "StockQuote" "Stock Quote" nonempty_key no_number unreachable
    ["test"; "in.json"] initial_world
  = (Abrupt (Exit 1), initial_world) /\
  run "StockQuote" "Stock Quote" nonempty_key no_number unreachable ["test"; "in.json"]
  = (1, initial_world).
Proof.
  assert (Hlen : length ["test"; "in.json"] <> 3%nat) by (simpl; lia).
  split; [exact Hlen|].
  apply (main_wrong_argument_count "StockQuote" "Stock Quote" nonempty_key
           no_number unreachable ["test"; "in.json"] initial_world Hlen).
Defined.

(** C10 at a collection against a provider that cannot be reached. *)
Lemma main_three_arguments_exit_0_witness :
  length ["collect"; "in.json"; "out.json"] = 3%nat /\
  (run "StockQuote" "Stock Quote" nonempty_key no_number unreachable
     ["collect"; "in.json"; "out.json"]).1 = 0.
Proof.
  split; [reflexivity|].
  apply (main_three_arguments_exit_0 "StockQuote" "Stock Quote" nonempty_key
           no_number unreachable ["collect"; "in.json"; "out.json"]).
  reflexivity.
Defined.

(** C9 with the adapter kind [StockQuote] and a check that rejects only
    the empty key. *)
Lemma adapter_definition_shape_witness :
  nonempty_key "StockQuote" = true /\
  Forall (fun k => nonempty_key k = true) defined_keys /\
  exists d,
    get_adapter_definition (R' := unit) "StockQuote" "Stock Quote"
      nonempty_key initial_world
    = (Normal (Some d), initial_world) /\
    size (credential_types d) = 1%nat /\
    size (object_types d) = 1%nat.
Proof.
  assert (Hkeys : Forall (fun k => nonempty_key k = true) defined_keys)
    by (unfold defined_keys; repeat constructor).
  split; [reflexivity|]. split; [exact Hkeys|].
  destruct (adapter_definition_shape "StockQuote" "Stock Quote" nonempty_key
              initial_world eq_refl Hkeys)
    as (d & Hd & Hc & _ & _ & _ & Ho & _).
  exists d. done.
Defined.

(** ** Whole runs *)

(** A collection that goes well: one request, the quote in the output
    file, exit status 0. *)
Example run_collect_sample :
  run "StockQuote" "Stock Quote" nonempty_key no_number
    (answering {| status_code := 200; json_body := inr quote_body |})
    ["collect"; "in.json"; "out.json"]
  = (0,
     {| out_file :=
          Some (CollectPayload
                  (ResultJson
                     [ {| object_json_key :=
                            quote_key "StockQuote" (Some "ABC");
                          object_json_metrics :=
                            [ {| metric_json_key := "bid";
                                 number_value := 10.5 |};
                              {| metric_json_key := "ask";
                                 number_value := 10.7 |} ] |} ]));
        requested := ["https://api.finage.co.uk/last/stock/ABC?apikey=k3y"] |}).
Proof. vm_compute. reflexivity. Qed.

(** A connection test against a provider that cannot be reached: the
    error is in the output file, and the exit status is still 0. *)
Example run_test_unreachable :
  run "StockQuote" "Stock Quote" nonempty_key no_number unreachable
    ["test"; "in.json"; "out.json"]
  = (0,
     {| out_file :=
          Some (TestPayload
                  {| test_error_message :=
                       Some ("Unexpected connection test error: "
                             ++ "ConnectionError('no route to host')") |});
        requested := ["https://api.finage.co.uk/last/stock/ABC?apikey=k3y"] |}).
Proof. vm_compute. reflexivity. Qed.

(** [endpoint_urls] writes an empty list and asks the provider nothing. *)
Example run_endpoint_urls :
  run "StockQuote" "Stock Quote" nonempty_key no_number unreachable
    ["endpoint_urls"; "in.json"; "out.json"]
  = (0,
     {| out_file := Some (EndpointPayload {| endpoints := [] |});
        requested := [] |}).
Proof. reflexivity. Qed.

(** An input file that cannot be read: nothing is written, and the exit
    status is 0 all the same. *)
Example run_unreadable_input :
  run "StockQuote" "Stock Quote" nonempty_key no_number
    {| from_input := inl (Exn "FileNotFoundError" "'in.json'");
       http_get := fun _ => inl (Exn "ConnectionError" "''");
       write_fault := None |}
    ["collect"; "in.json"; "out.json"]
  = (0, initial_world).
Proof. reflexivity. Qed.


(** A body without the fields: the error message alone is written. *)
Example run_collect_empty_body :
  run "StockQuote" "Stock Quote" nonempty_key no_number
    (answering {| status_code := 200; json_body := inr (JObj ∅) |})
    ["collect"; "in.json"; "out.json"]
  = (0,
     {| out_file :=
          Some (CollectPayload
                  (ErrorJson "Unexpected collection error: KeyError('bid')"));
        requested := ["https://api.finage.co.uk/last/stock/ABC?apikey=k3y"] |}).
Proof. vm_compute. reflexivity. Qed.

(** Whole numbers are written as floating-point numbers. *)
Example run_collect_integers :
  run "StockQuote" "Stock Quote" nonempty_key no_number
    (answering {| status_code := 200;
                  json_body := inr (JObj {[ "bid" := JInt 10;
                                            "ask" := JInt 11 ]}) |})
    ["collect"; "in.json"; "out.json"]
  = (0,
     {| out_file :=
          Some (CollectPayload
                  (ResultJson
                     [ {| object_json_key :=
                            quote_key "StockQuote" (Some "ABC");
                          object_json_metrics :=
                            [ {| metric_json_key := "bid";
                                 number_value := 10 |};
                              {| metric_json_key := "ask";
                                 number_value := 11 |} ] |} ]));
        requested := ["https://api.finage.co.uk/last/stock/ABC?apikey=k3y"] |}).
Proof. vm_compute. reflexivity. Qed.

(** A value that is no number: [collect] raises out of its [finally]
    block, nothing is written, and the exit status is 0. *)
Example run_collect_text_value :
  collect (R' := unit) "StockQuote" no_number
    (answering {| status_code := 200;
                  json_body := inr (JObj {[ "bid" := JStr "n/a";
                                            "ask" := JInt 11 ]}) |})
    abc_instance initial_world
  = (Abrupt
       (Raise (Exn "ValueError"
                   (double_quote
                    ++ "could not convert string to float: 'n/a'"
                    ++ double_quote))),
     asked (instance_url abc_instance) initial_world) /\
  run "StockQuote" "Stock Quote" nonempty_key no_number
    (answering {| status_code := 200;
                  json_body := inr (JObj {[ "bid" := JStr "n/a";
                                            "ask" := JInt 11 ]}) |})
    ["collect"; "in.json"; "out.json"]
  = (0, asked (instance_url abc_instance) initial_world).
Proof. split; vm_compute; reflexivity. Qed.

(** A body that is [null]: the message carries Python's [TypeError]. *)
Example run_collect_null_body :
  run "StockQuote" "Stock Quote" nonempty_key no_number
    (answering {| status_code := 200; json_body := inr JNull |})
    ["collect"; "in.json"; "out.json"]
  = (0,
     {| out_file :=
          Some (CollectPayload
                  (ErrorJson
                     ("Unexpected collection error: TypeError("
                      ++ double_quote
                      ++ "'NoneType' object is not subscriptable"
                      ++ double_quote ++ ")")));
        requested := ["https://api.finage.co.uk/last/stock/ABC?apikey=k3y"] |}).
Proof. vm_compute. reflexivity. Qed.

(** * More of the program *)

(** ** What one call of [test] does, in full *)

(** [test]: the result by what the request gave, and the world after. *)
Lemma test_run {R'} (env : Env) (ai : AdapterInstance) (w : World) :
  test (R' := R') env ai w
  = (Normal
       (Some
          match http_get env (instance_url ai) with
          | inr response =>
              if status_code response =? 200 then new_TestResult
              else test_with_error "Error connecting to market" new_TestResult
          | inl e =>
              test_with_error ("Unexpected connection test error: " ++ repr e)
                              new_TestResult
          end),
     asked (instance_url ai) w).
Proof.
  unfold test, Py.call, Py.try_finally, Py.try_except, Py.bind, Py.in_world,
    Py.in_locals, requests_get, Py.get, Py.stop, Py.modify, Py.ret,
    instance_url, asked.
  destruct (http_get env _) as [e|response]; simpl; [done|].
  by destruct (status_code response =? 200).
Qed.

Lemma has_key_getitem (q : json) (k : string) :
  has_key q k = true <-> exists v, getitem q k = inr v.
Proof.
  destruct q as [| | | | | |m]; simpl;
    try (split; [discriminate | by intros [v ?]]).
  rewrite bool_decide_eq_true.
  destruct (m !! k) as [v|]; split.
  - eauto.
  - intros _. by eexists.
  - by intros [v ?].
  - by intros [v ?].
Qed.

(** ** [test] and [collect]: requests, messages, faults *)

(** X1: [test] and [collect] leave the same world behind: one more
    request, for the URL made of the ticker and the API key, and the
    output file as it was.  [test] always returns a result; [collect]
    leaves that world whether it returns or raises. *)
Theorem operations_request_once
    (kind : string) (tf : string -> exn + float) (env : Env)
    (ai : AdapterInstance) (w : World) :
  exists r c,
    test (R' := unit) env ai w = (Normal (Some r), asked (instance_url ai) w) /\
    collect (R' := unit) kind tf env ai w = (c, asked (instance_url ai) w) /\
    requested (asked (instance_url ai) w)
    = (requested w
       ++ [("https://api.finage.co.uk/last/stock/"
            ++ fmt (get_identifier_value ai "ticker")
            ++ "?apikey=" ++ fmt (get_credential_value ai "apiKey"))%string])%list /\
    out_file (asked (instance_url ai) w) = out_file w.
Proof.
  eexists _, _. split; [apply test_run|]. split; [|done].
  pose proof (collect_run (R' := unit) kind tf env ai w) as Hc.
  simpl in Hc. exact Hc.
Qed.

(** X2: the message [test] reports tells the two failures apart: a
    request that raised gives the fixed prefix followed by [repr] of the
    exception, an answer with another status than 200 gives the fixed text
    "Error connecting to market". *)
Theorem test_error_messages
    (env : Env) (ai : AdapterInstance) (w : World) :
  exists r w',
    test (R' := unit) env ai w = (Normal (Some r), w') /\
    test_error_message r
    = match http_get env (instance_url ai) with
      | inl e => Some ("Unexpected connection test error: " ++ repr e)
      | inr response =>
          if status_code response =? 200 then None
          else Some "Error connecting to market"
      end.
Proof.
  eexists _, _. split; [apply test_run|].
  destruct (http_get env _) as [e|response]; [done|].
  by destruct (status_code response =? 200).
Qed.

(** X3: when the request itself raises, [collect] reports the exception
    in its error message and its result holds no object. *)
Theorem collect_request_fault
    (kind : string) (tf : string -> exn + float) (env : Env)
    (ai : AdapterInstance) (w : World) (e : exn) :
  http_get env (instance_url ai) = inl e ->
  exists r w',
    collect (R' := unit) kind tf env ai w = (Normal (Some r), w') /\
    collect_error_message r
    = Some ("Unexpected collection error: " ++ repr e) /\
    objects r = ∅.
Proof.
  intros Hget.
  pose proof (collect_run (R' := unit) kind tf env ai w) as Hc. simpl in Hc.
  rewrite Hget in Hc. eexists _, _. split; [exact Hc|]. done.
Qed.

(** X4: when the body of the answer cannot be decoded, [collect] reports
    the decoding error and its result holds no object, whatever the
    status code. *)
Theorem collect_decode_fault
    (kind : string) (tf : string -> exn + float) (env : Env)
    (ai : AdapterInstance) (w : World) (response : Response) (e : exn) :
  http_get env (instance_url ai) = inr response ->
  json_body response = inl e ->
  exists r w',
    collect (R' := unit) kind tf env ai w = (Normal (Some r), w') /\
    collect_error_message r
    = Some ("Unexpected collection error: " ++ repr e) /\
    objects r = ∅.
Proof.
  intros Hget Hjson.
  pose proof (collect_run (R' := unit) kind tf env ai w) as Hc. simpl in Hc.
  rewrite Hget, Hjson in Hc. eexists _, _. split; [exact Hc|]. done.
Qed.

(** Whatever [collect] does, the world after it has the one request
    more. *)
Lemma collect_world {R'} (kind : string) (tf : string -> exn + float)
    (env : Env) (ai : AdapterInstance) (w : World) :
  (collect (R' := R') kind tf env ai w).2 = asked (instance_url ai) w.
Proof.
  pose proof (collect_run (R' := R') kind tf env ai w) as Hc. simpl in Hc.
  by rewrite Hc.
Qed.

(** A result that [collect] has returned can be reported: the report was
    computed once already, in the [finally] block.  It is the error
    message alone when there is one, and a list of objects otherwise. *)
Lemma collect_returned_report {R'} (kind : string)
    (tf : string -> exn + float) (env : Env) (ai : AdapterInstance)
    (w w1 : World) (r : CollectResult) :
  collect (R' := R') kind tf env ai w = (Normal (Some r), w1) ->
  exists j,
    CollectResult_get_json tf r = inr j /\
    match collect_error_message r with
    | Some msg => j = ErrorJson msg
    | None => exists result, j = ResultJson result
    end.
Proof.
  pose proof (collect_run (R' := R') kind tf env ai w) as Hc. simpl in Hc.
  rewrite Hc. clear Hc.
  destruct (http_get env _) as [e|response].
  { intros [= <- _]. by eexists. }
  destruct (json_body response) as [e|q].
  { intros [= <- _]. by eexists. }
  destruct (getitem q "bid") as [e|b].
  { intros [= <- _]. by eexists. }
  destruct (getitem q "ask") as [e|a].
  { intros [= <- _]. by eexists. }
  destruct (to_float tf b) as [e|fb] eqn:Hb; [done|].
  destruct (to_float tf a) as [e|fa] eqn:Ha; [done|].
  intros [= <- _]. rewrite get_json_quote, Hb, Ha.
  eexists. split; [done|]. by eexists.
Qed.

(** X5: when the decoded body has both fields and both values are
    numbers to [float], [collect] returns a result without error whose one
    object, the Quote named by the ticker, holds the two values as they
    were read; its report carries them as floating-point numbers. *)
Theorem collect_passes_values_through
    (kind : string) (tf : string -> exn + float) (env : Env)
    (ai : AdapterInstance) (w : World)
    (response : Response) (m : gmap string json) (b a : json) (fb fa : float) :
  http_get env (instance_url ai) = inr response ->
  json_body response = inr (JObj m) ->
  m !! "bid" = Some b ->
  m !! "ask" = Some a ->
  to_float tf b = inr fb ->
  to_float tf a = inr fa ->
  let k := quote_key kind (get_identifier_value ai "ticker") in
  exists r w',
    collect (R' := unit) kind tf env ai w = (Normal (Some r), w') /\
    collect_error_message r = None /\
    objects r
    = {[ k := {| object_key := k;
                 metrics := [ {| metric_key := "bid"; metric_value := b |};
                              {| metric_key := "ask"; metric_value := a |} ] |} ]} /\
    CollectResult_get_json tf r
    = inr (ResultJson
             [ {| object_json_key := k;
                  object_json_metrics :=
                    [ {| metric_json_key := "bid"; number_value := fb |};
                      {| metric_json_key := "ask"; number_value := fa |} ] |} ]).
Proof.
  intros Hget Hjson Hb Ha Hfb Hfa k.
  pose proof (collect_run (R' := unit) kind tf env ai w) as Hc. simpl in Hc.
  rewrite Hget, Hjson in Hc. simpl in Hc. rewrite Hb, Ha, Hfb, Hfa in Hc.
  eexists _, _. split; [exact Hc|].
  split; [done|]. split; [done|].
  by rewrite get_json_quote, Hfb, Hfa.
Qed.

(** X6: [collect] returns a result without an error exactly when the
    request was answered, the body decoded, the decoded body has both
    [bid] and [ask], and both values are numbers to [float]. *)
Theorem collect_success_iff
    (kind : string) (tf : string -> exn + float) (env : Env)
    (ai : AdapterInstance) (w : World) :
  (exists r w',
      collect (R' := unit) kind tf env ai w = (Normal (Some r), w') /\
      collect_error_message r = None)
  <->
  (exists response q b a fb fa,
      http_get env (instance_url ai) = inr response /\
      json_body response = inr q /\
      getitem q "bid" = inr b /\ getitem q "ask" = inr a /\
      to_float tf b = inr fb /\ to_float tf a = inr fa).
Proof.
  pose proof (collect_run (R' := unit) kind tf env ai w) as Hc. simpl in Hc.
  rewrite Hc. clear Hc.
  destruct (http_get env _) as [e|response].
  { split; [by intros (? & ? & [= <- _] & ?) | by intros (? & ? & ? & ? & ? & ? & ? & _)]. }
  destruct (json_body response) as [e|q] eqn:Hjson.
  { split; [by intros (? & ? & [= <- _] & ?)|].
    intros (? & ? & ? & ? & ? & ? & [= <-] & ? & _). congruence. }
  destruct (getitem q "bid") as [e|b] eqn:Hb.
  { split; [by intros (? & ? & [= <- _] & ?)|].
    intros (? & ? & ? & ? & ? & ? & [= <-] & ? & ? & _). congruence. }
  destruct (getitem q "ask") as [e|a] eqn:Ha.
  { split; [by intros (? & ? & [= <- _] & ?)|].
    intros (? & ? & ? & ? & ? & ? & [= <-] & ? & ? & ? & _). congruence. }
  destruct (to_float tf b) as [e|fb] eqn:Hfb.
  { split; [by intros (? & ? & ? & ?)|].
    intros (? & ? & ? & ? & ? & ? & [= <-] & ? & ? & ? & ? & _). congruence. }
  destruct (to_float tf a) as [e|fa] eqn:Hfa.
  { split; [by intros (? & ? & ? & ?)|].
    intros (? & ? & ? & ? & ? & ? & [= <-] & ? & ? & ? & ? & ?). congruence. }
  split; [|by eexists _, _].
  intros _. by exists response, q, b, a, fb, fa.
Qed.

(** X7: a result that [collect] returns never holds half a quote: an
    object in it is the Quote of the ticker, with the two metrics bid and
    ask, in that order, when the result has no error, and with no metric
    at all when it has one. *)
Theorem collect_all_or_nothing
    (kind : string) (tf : string -> exn + float) (env : Env)
    (ai : AdapterInstance) (w w' : World) (r : CollectResult) :
  collect (R' := unit) kind tf env ai w = (Normal (Some r), w') ->
  forall k o,
    objects r !! k = Some o ->
    k = quote_key kind (get_identifier_value ai "ticker") /\
    (collect_error_message r = None /\
     List.map metric_key (metrics o) = ["bid"; "ask"]
     \/
     collect_error_message r <> None /\ metrics o = []).
Proof.
  pose proof (collect_run (R' := unit) kind tf env ai w) as Hc. simpl in Hc.
  rewrite Hc. clear Hc. intros Hr k o.
  destruct (http_get env _) as [e|response].
  { injection Hr as <- _. simpl. by rewrite lookup_empty. }
  destruct (json_body response) as [e|q].
  { injection Hr as <- _. simpl. by rewrite lookup_empty. }
  destruct (getitem q "bid") as [e|b].
  { injection Hr as <- _. simpl.
    intros [<- <-]%lookup_singleton_Some. split; [done|]. by right. }
  destruct (getitem q "ask") as [e|a].
  { injection Hr as <- _. simpl.
    intros [<- <-]%lookup_singleton_Some. split; [done|]. by right. }
  destruct (to_float tf b) as [e|fb]; [done|].
  destruct (to_float tf a) as [e|fa]; [done|].
  injection Hr as <- _. simpl.
  intros [<- <-]%lookup_singleton_Some. split; [done|]. by left.
Qed.

(** X18: when both fields are there but the value of one is no number
    to [float], [collect] returns no result: the [get_json()] in its
    [finally] block raises, after the request was made, and that
    exception leaves [collect]. *)
Theorem collect_raises_on_value
    (kind : string) (tf : string -> exn + float) (env : Env)
    (ai : AdapterInstance) (w : World)
    (response : Response) (q b a : json) (e : exn) :
  http_get env (instance_url ai) = inr response ->
  json_body response = inr q ->
  getitem q "bid" = inr b ->
  getitem q "ask" = inr a ->
  to_float tf b = inl e
  \/ (exists fb, to_float tf b = inr fb) /\ to_float tf a = inl e ->
  collect (R' := unit) kind tf env ai w
  = (Abrupt (Raise e), asked (instance_url ai) w).
Proof.
  intros Hget Hjson Hb Ha Hbad.
  pose proof (collect_run (R' := unit) kind tf env ai w) as Hc. simpl in Hc.
  rewrite Hget, Hjson, Hb, Ha in Hc. rewrite Hc.
  destruct Hbad as [->|[[fb ->] ->]]; done.
Qed.

(** ** [get_adapter_definition], in full *)

(** The function never raises and never touches the world: it returns
    the definition when the SDK accepts every key, and [None] as soon as
    one is rejected. *)
Lemma get_adapter_definition_run {R'}
    (kind label : string) (valid : string -> bool) (w : World) :
  get_adapter_definition (R' := R') kind label valid w
  = (Normal (if forallb valid (kind :: defined_keys)
             then Some (quote_definition kind label) else None), w).
Proof.
  unfold get_adapter_definition, Py.call, Py.try_except, Py.bind, Py.lift,
    new_AdapterDefinition, define_credential_type, define_password_parameter,
    define_string_parameter, define_int_parameter, define_object_type,
    define_metric, add_parameter, validate_key, defined_keys.
  cbn [forallb parameter_key].
  destruct (valid kind); [|done].
  destruct (valid "credential"); [|done].
  destruct (valid "apiKey"); [|done].
  destruct (valid "ticker"); [|done].
  destruct (valid "container_memory_limit"); [|done].
  destruct (valid "quote"); [|done].
  destruct (valid "bid"); [|done].
  destruct (valid "ask"); [|done].
  simpl. unfold quote_definition.
  by rewrite !insert_empty, !alter_singleton_eq.
Qed.

(** X8: [get_adapter_definition] never raises and leaves the world as it
    was; it returns a definition exactly when the SDK accepts the adapter
    key and every key the function defines something under.  One rejected
    key, wherever it comes, makes the function return [None]. *)
Theorem adapter_definition_some_iff
    (kind label : string) (valid : string -> bool) (w : World) :
  exists x,
    get_adapter_definition (R' := unit) kind label valid w = (Normal x, w) /\
    (is_Some x <->
     valid kind = true /\ Forall (fun k => valid k = true) defined_keys).
Proof.
  eexists. split; [apply get_adapter_definition_run|].
  rewrite <- (Forall_cons (fun k => valid k = true) kind defined_keys).
  rewrite List.Forall_forall, <- List.forallb_forall.
  destruct (forallb valid (kind :: defined_keys)); simpl.
  - split; [done|]. by eexists.
  - split; [by intros [? ?] | done].
Qed.

(** X9: a definition that [get_adapter_definition] returns carries the
    two constants as its key and label, declares its two parameters in
    the order ticker, memory limit, both required, and gives its metrics
    no unit. *)
Theorem adapter_definition_contents
    (kind label : string) (valid : string -> bool) (w w' : World)
    (d : AdapterDefinition) :
  get_adapter_definition (R' := unit) kind label valid w
  = (Normal (Some d), w') ->
  definition_key d = kind /\
  definition_label d = label /\
  List.map parameter_key (parameters d) = ["ticker"; "container_memory_limit"] /\
  List.map parameter_required (parameters d) = [true; true] /\
  (forall k o a,
      object_types d !! k = Some o -> In a (attributes o) ->
      attribute_unit a = None).
Proof.
  rewrite get_adapter_definition_run.
  destruct (forallb valid (kind :: defined_keys)); [|discriminate].
  intros [= <- _]. simpl. repeat split.
  intros k o a [<- <-]%lookup_singleton_Some. simpl.
  intros [<-|[<-|[]]]; done.
Qed.

(** ** [main], method by method *)

Section Runs.
Variables (kind label : string) (valid : string -> bool).
Variables (tf : string -> exn + float) (env : Env).

Lemma main_bad_count (argv : list string) (w : World) :
  length argv <> 3%nat ->
  main kind label valid tf env argv w = (Abrupt (Exit 1), w).
Proof.
  intros Hlen. apply Nat.eqb_neq in Hlen.
  unfold main, Py.bind, sys_exit, Py.stop. by rewrite Hlen.
Qed.

(** [main] with three arguments, one method at a time. *)
Lemma main_test (input output : string) (w : World) :
  main kind label valid tf env ["test"; input; output] w
  = (Abrupt (Exit 0),
     match from_input env with
     | inl _ => w
     | inr ai =>
         match test (R' := unit) env ai w with
         | (Normal (Some r), w1) =>
             match write_fault env with
             | Some _ => w1
             | None => written (TestPayload r) w1
             end
         | (_, w1) => w1
         end
     end).
Proof.
  unfold main, Py.bind, Py.try_finally, first_argument, Py.ret, Py.lift,
    sys_exit, Py.stop.
  cbn -[test].
  destruct (from_input env) as [e|ai]; [done|]. cbn -[test].
  rewrite !test_run. cbn.
  by destruct (write_fault env).
Qed.

Lemma main_collect (input output : string) (w : World) :
  main kind label valid tf env ["collect"; input; output] w
  = (Abrupt (Exit 0),
     match from_input env with
     | inl _ => w
     | inr ai =>
         match collect (R' := unit) kind tf env ai w with
         | (Normal (Some r), w1) =>
             match CollectResult_get_json tf r, write_fault env with
             | inr j, None => written (CollectPayload j) w1
             | _, _ => w1
             end
         | (_, w1) => w1
         end
     end).
Proof.
  unfold main, Py.bind, Py.try_finally, first_argument, Py.ret, Py.lift,
    sys_exit, Py.stop.
  cbn -[collect].
  destruct (from_input env) as [e|ai]; [done|]. cbn -[collect].
  destruct (collect kind tf env ai w) as [[[r|]|g] w1]; cbn; try done.
  unfold collect_payload.
  destruct (CollectResult_get_json tf r) as [e|j]; cbn; [done|].
  by destruct (write_fault env).
Qed.

Lemma main_endpoint_urls (input output : string) (w : World) :
  main kind label valid tf env ["endpoint_urls"; input; output] w
  = (Abrupt (Exit 0),
     match from_input env, write_fault env with
     | inr _, None => written (EndpointPayload {| endpoints := [] |}) w
     | _, _ => w
     end).
Proof.
  unfold main, Py.bind, Py.try_finally, first_argument, Py.ret, Py.lift,
    sys_exit, Py.stop.
  cbn.
  destruct (from_input env) as [e|ai]; [done|]. cbn.
  by destruct (write_fault env).
Qed.

Lemma main_adapter_definition (input output : string) (w : World) :
  main kind label valid tf env ["adapter_definition"; input; output] w
  = (Abrupt (Exit 0),
     if forallb valid (kind :: defined_keys) then
       match write_fault env with
       | Some _ => w
       | None => written (DefinitionPayload (quote_definition kind label)) w
       end
     else w).
Proof.
  unfold main, Py.bind, Py.try_finally, first_argument, Py.ret, Py.lift,
    sys_exit, Py.stop.
  cbn -[get_adapter_definition forallb].
  rewrite get_adapter_definition_run.
  destruct (forallb valid (kind :: defined_keys)); [|done]. cbn.
  by destruct (write_fault env).
Qed.
End Runs.

Lemma method_cases (m : string) :
  m = "test" \/ m = "endpoint_urls" \/ m = "collect"
  \/ m = "adapter_definition" \/ ~ In m methods.
Proof.
  destruct (decide (m = "test")); [tauto|].
  destruct (decide (m = "endpoint_urls")); [tauto|].
  destruct (decide (m = "collect")); [tauto|].
  destruct (decide (m = "adapter_definition")); [tauto|].
  do 4 right. simpl. intuition congruence.
Qed.

(** Case analysis on the arguments of [main]: a wrong count, or one of
    the four methods, or an unknown one. *)
Ltac by_method argv :=
  let Hlen := fresh "Hlen" in
  let Hnot := fresh "Hnot" in
  destruct (decide (length argv = 3%nat)) as [Hlen|Hlen];
  [ destruct argv as [|?m [|?i [|?o [|? ?]]]]; try discriminate Hlen;
    match goal with
    | |- context [main _ _ _ _ _ (?m :: _)] =>
        destruct (method_cases m) as [->|[->|[->|[->|Hnot]]]];
        [ rewrite main_test
        | rewrite main_endpoint_urls
        | rewrite main_collect
        | rewrite main_adapter_definition
        | rewrite (main_unknown_method _ _ _ _ _ _ _ _ _ Hnot) ]
    end
  | rewrite (main_bad_count _ _ _ _ _ _ _ Hlen) ].

Section Outcomes.
Variables (kind label : string) (valid : string -> bool).
Variables (tf : string -> exn + float) (env : Env).

(** X10: when the input file cannot be read, the three methods that
    read it leave the world as it was: no request is made, nothing is
    written; the pending exception is replaced by exit status 0. *)
Theorem main_unreadable_input
    (method input output : string) (w : World) (e : exn) :
  from_input env = inl e ->
  In method input_methods ->
  main kind label valid tf env [method; input; output] w
  = (Abrupt (Exit 0), w).
Proof.
  intros Hin [<-|[<-|[<-|[]]]].
  - by rewrite main_test, Hin.
  - by rewrite main_endpoint_urls, Hin.
  - by rewrite main_collect, Hin.
Qed.

(** X11: a [test] run with a readable input and a writable output makes
    the one request and writes to the output file the very result [test]
    returned, with or without an error in it. *)
Theorem main_test_writes_result
    (input output : string) (w : World) (ai : AdapterInstance) :
  from_input env = inr ai ->
  write_fault env = None ->
  exists r,
    test (R' := unit) env ai w = (Normal (Some r), asked (instance_url ai) w) /\
    main kind label valid tf env ["test"; input; output] w
    = (Abrupt (Exit 0), written (TestPayload r) (asked (instance_url ai) w)).
Proof.
  intros Hin Hout. eexists. split; [apply test_run|].
  by rewrite main_test, Hin, test_run, Hout.
Qed.

(** X12: a [collect] run with a readable input and a writable output
    writes the report of the result [collect] returned: the error message
    alone when the result has one, the objects otherwise.  When [collect]
    raised instead, nothing is written.  Either way the one request was
    made and the exit status is 0. *)
Theorem main_collect_writes_report
    (input output : string) (w : World) (ai : AdapterInstance) :
  from_input env = inr ai ->
  write_fault env = None ->
  let w1 := asked (instance_url ai) w in
  (exists r j,
      collect (R' := unit) kind tf env ai w = (Normal (Some r), w1) /\
      CollectResult_get_json tf r = inr j /\
      match collect_error_message r with
      | Some msg => j = ErrorJson msg
      | None => exists result, j = ResultJson result
      end /\
      main kind label valid tf env ["collect"; input; output] w
      = (Abrupt (Exit 0), written (CollectPayload j) w1))
  \/
  (exists e,
      collect (R' := unit) kind tf env ai w = (Abrupt (Raise e), w1) /\
      main kind label valid tf env ["collect"; input; output] w
      = (Abrupt (Exit 0), w1)).
Proof.
  intros Hin Hout w1. rewrite main_collect, Hin.
  pose proof (collect_world (R' := unit) kind tf env ai w) as Hw.
  pose proof (collect_run (R' := unit) kind tf env ai w) as Hc. simpl in Hc.
  destruct (collect kind tf env ai w) as [c w2] eqn:Hcollect.
  simpl in Hw. subst w2. fold w1 in Hc.
  destruct c as [[r|]|[r|e|n]].
  - destruct (collect_returned_report kind tf env ai w w1 r Hcollect)
      as (j & Hj & Hform).
    left. exists r, j. by rewrite Hj, Hout.
  - exfalso. revert Hc.
    repeat (case_match; try discriminate).
  - exfalso. revert Hc.
    repeat (case_match; try discriminate).
  - right. by exists e.
  - exfalso. revert Hc.
    repeat (case_match; try discriminate).
Qed.

(** X13: [endpoint_urls] writes an empty list of endpoints, whatever the
    adapter instance holds, and makes no request. *)
Theorem main_endpoint_urls_writes_empty
    (input output : string) (w : World) (ai : AdapterInstance) :
  from_input env = inr ai ->
  write_fault env = None ->
  get_endpoints (R' := unit) ai w = (Normal (Some {| endpoints := [] |}), w) /\
  main kind label valid tf env ["endpoint_urls"; input; output] w
  = (Abrupt (Exit 0), written (EndpointPayload {| endpoints := [] |}) w).
Proof.
  intros Hin Hout. split; [done|].
  by rewrite main_endpoint_urls, Hin, Hout.
Qed.

(** X14: [adapter_definition] needs neither the input file nor the
    provider: when the SDK accepts the keys and the output can be written,
    the definition is written, whatever the input file and the provider
    do, and no request is made. *)
Theorem main_adapter_definition_writes
    (input output : string) (w : World) :
  valid kind = true ->
  Forall (fun k => valid k = true) defined_keys ->
  write_fault env = None ->
  exists d,
    get_adapter_definition (R' := unit) kind label valid w
    = (Normal (Some d), w) /\
    main kind label valid tf env ["adapter_definition"; input; output] w
    = (Abrupt (Exit 0), written (DefinitionPayload d) w).
Proof.
  intros Hkind Hkeys Hout.
  assert (forallb valid (kind :: defined_keys) = true) as Hall.
  { apply List.forallb_forall, List.Forall_forall. by constructor. }
  exists (quote_definition kind label).
  by rewrite get_adapter_definition_run, main_adapter_definition, Hall, Hout.
Qed.

(** X16: what a run leaves in the output file is the result of the
    method it was called with: a payload is only ever written by a run
    with three arguments whose first one names the payload's method. *)
Theorem payload_matches_method (argv : list string) (p : Payload) :
  out_file (run kind label valid tf env argv).2 = Some p ->
  exists input output, argv = [payload_method p; input; output].
Proof.
  unfold run.
  destruct (main kind label valid tf env argv initial_world) as [c w'] eqn:Hm.
  simpl. intros Hp.
  assert (out_file (main kind label valid tf env argv initial_world).2
          = Some p) as Hp' by (by rewrite Hm).
  clear Hm Hp. revert Hp'.
  by_method argv; cbn [snd]; try done.
  - destruct (from_input env) as [?|ai]; [done|]. rewrite test_run.
    destruct (write_fault env); [done|]. intros [= <-]. by eexists _, _.
  - destruct (from_input env); [done|].
    destruct (write_fault env); [done|]. intros [= <-]. by eexists _, _.
  - destruct (from_input env) as [?|ai]; [done|].
    pose proof (collect_world (R' := unit) kind tf env ai initial_world) as Hw.
    destruct (collect kind tf env ai initial_world) as [[[r|]|g] w1];
      simpl in Hw; subst w1; try done.
    destruct (CollectResult_get_json tf r); [done|].
    destruct (write_fault env); [done|]. intros [= <-]. by eexists _, _.
  - destruct (forallb valid (kind :: defined_keys)); [|done].
    destruct (write_fault env); [done|]. intros [= <-]. by eexists _, _.
Qed.

(** X17: a run makes a request only for [test] and [collect], only after
    the input file was read, and then exactly one, for the URL of the
    adapter instance it read. *)
Theorem main_requests (argv : list string) (w : World) :
  requested (main kind label valid tf env argv w).2 <> requested w ->
  exists ai input output,
    from_input env = inr ai /\
    (argv = ["test"; input; output] \/ argv = ["collect"; input; output]) /\
    requested (main kind label valid tf env argv w).2
    = (requested w ++ [instance_url ai])%list.
Proof.
  by_method argv; cbn [snd]; try done.
  - destruct (from_input env) as [?|ai]; [done|]. rewrite test_run.
    intros _. exists ai. eexists _, _. split; [done|]. split; [by left|].
    by destruct (write_fault env).
  - destruct (from_input env); [done|]. by destruct (write_fault env).
  - destruct (from_input env) as [?|ai]; [done|].
    pose proof (collect_world (R' := unit) kind tf env ai w) as Hw.
    destruct (collect kind tf env ai w) as [c w1]; simpl in Hw; subst w1.
    intros _. exists ai. eexists _, _. split; [done|]. split; [by right|].
    destruct c as [[r|]|g]; try done.
    destruct (CollectResult_get_json tf r); [done|].
    by destruct (write_fault env).
  - destruct (forallb valid (kind :: defined_keys)); [|done].
    by destruct (write_fault env).
Qed.
End Outcomes.

(** ** These properties at sample runs *)

Lemma collect_request_fault_witness :
  let e := Exn "ConnectionError" "'no route to host'" in
  http_get unreachable (instance_url abc_instance) = inl e /\
  exists r w',
    collect (R' := unit) "StockQuote" no_number unreachable abc_instance
      initial_world
    = (Normal (Some r), w') /\
    collect_error_message r
    = Some ("Unexpected collection error: " ++ repr e) /\
    objects r = ∅.
Proof.
  intros e. split; [reflexivity|].
  apply (collect_request_fault "StockQuote" no_number unreachable
           abc_instance initial_world e).
  reflexivity.
Defined.

Lemma collect_decode_fault_witness :
  let e := Exn "JSONDecodeError" "'Expecting value'" in
  let response := {| status_code := 502; json_body := inl e |} in
  json_body response = inl e /\
  exists r w',
    collect (R' := unit) "StockQuote" no_number (answering response)
      abc_instance initial_world
    = (Normal (Some r), w') /\
    collect_error_message r
    = Some ("Unexpected collection error: " ++ repr e) /\
    objects r = ∅.
Proof.
  intros e response. split; [reflexivity|].
  apply (collect_decode_fault "StockQuote" no_number (answering response)
           abc_instance initial_world response e); reflexivity.
Defined.

(** A whole number and a truth value are numbers to [float]. *)
Lemma collect_passes_values_through_witness :
  let m : gmap string json := {[ "bid" := JInt 10; "ask" := JBool true ]} in
  let response := {| status_code := 200; json_body := inr (JObj m) |} in
  let k := quote_key "StockQuote" (Some "ABC") in
  to_float no_number (JInt 10) = inr 10%float /\
  to_float no_number (JBool true) = inr 1%float /\
  exists r w',
    collect (R' := unit) "StockQuote" no_number (answering response)
      abc_instance initial_world
    = (Normal (Some r), w') /\
    collect_error_message r = None /\
    objects r
    = {[ k := {| object_key := k;
                 metrics := [ {| metric_key := "bid";
                                 metric_value := JInt 10 |};
                              {| metric_key := "ask";
                                 metric_value := JBool true |} ] |} ]} /\
    CollectResult_get_json no_number r
    = inr (ResultJson
             [ {| object_json_key := k;
                  object_json_metrics :=
                    [ {| metric_json_key := "bid"; number_value := 10 |};
                      {| metric_json_key := "ask"; number_value := 1 |} ] |} ]).
Proof.
  intros m response k.
  assert (Hb : to_float no_number (JInt 10) = inr 10%float)
    by (vm_compute; reflexivity).
  split; [exact Hb|]. split; [reflexivity|].
  apply (collect_passes_values_through "StockQuote" no_number
           (answering response) abc_instance initial_world response m
           (JInt 10) (JBool true) 10%float 1%float
           eq_refl eq_refl eq_refl eq_refl Hb eq_refl).
Defined.

Lemma collect_all_or_nothing_witness :
  let response := {| status_code := 200; json_body := inr quote_body |} in
  let k := quote_key "StockQuote" (Some "ABC") in
  let o := {| object_key := k;
              metrics := [ {| metric_key := "bid";
                              metric_value := JFloat 10.5 |};
                           {| metric_key := "ask";
                              metric_value := JFloat 10.7 |} ] |} in
  let r := {| objects := {[ k := o ]}; collect_error_message := None |} in
  collect (R' := unit) "StockQuote" no_number (answering response)
    abc_instance initial_world
  = (Normal (Some r), asked (instance_url abc_instance) initial_world) /\
  objects r !! k = Some o /\
  (collect_error_message r = None /\
   List.map metric_key (metrics o) = ["bid"; "ask"]
   \/
   collect_error_message r <> None /\ metrics o = []).
Proof.
  intros response k o r.
  assert (Hc : collect (R' := unit) "StockQuote" no_number
                 (answering response) abc_instance initial_world
               = (Normal (Some r),
                  asked (instance_url abc_instance) initial_world))
    by (vm_compute; reflexivity).
  assert (Ho : objects r !! k = Some o) by (vm_compute; reflexivity).
  split; [exact Hc|]. split; [exact Ho|].
  exact (proj2 (collect_all_or_nothing "StockQuote" no_number
                  (answering response) abc_instance initial_world _ r Hc
                  k o Ho)).
Defined.

(** A value that is [null] is no number. *)
Lemma collect_raises_on_value_witness :
  let q := JObj {[ "bid" := JNull; "ask" := JInt 11 ]} in
  let response := {| status_code := 200; json_body := inr q |} in
  let e :=
    TypeError
      "float() argument must be a string or a real number, not 'NoneType'" in
  to_float no_number JNull = inl e /\
  collect (R' := unit) "StockQuote" no_number (answering response)
    abc_instance initial_world
  = (Abrupt (Raise e), asked (instance_url abc_instance) initial_world).
Proof.
  intros q response e. split; [reflexivity|].
  apply (collect_raises_on_value "StockQuote" no_number (answering response)
           abc_instance initial_world response q JNull (JInt 11) e
           eq_refl eq_refl eq_refl eq_refl).
  left. reflexivity.
Defined.

Lemma adapter_definition_contents_witness :
  get_adapter_definition (R' := unit) "StockQuote" "Stock Quote" nonempty_key
    initial_world
  = (Normal (Some (quote_definition "StockQuote" "Stock Quote")),
     initial_world) /\
  definition_key (quote_definition "StockQuote" "Stock Quote") = "StockQuote" /\
  List.map parameter_required
    (parameters (quote_definition "StockQuote" "Stock Quote"))
  = [true; true].
Proof.
  assert (Hd : get_adapter_definition (R' := unit) "StockQuote" "Stock Quote"
                 nonempty_key initial_world
               = (Normal (Some (quote_definition "StockQuote" "Stock Quote")),
                  initial_world))
    by (vm_compute; reflexivity).
  split; [exact Hd|].
  destruct (adapter_definition_contents "StockQuote" "Stock Quote"
              nonempty_key initial_world initial_world _ Hd)
    as (Hk & _ & _ & Hr & _).
  split; [exact Hk | exact Hr].
Defined.

Lemma main_unreadable_input_witness :
  from_input unreadable_input = inl (Exn "FileNotFoundError" "'in.json'") /\
  In "collect" input_methods /\
  main "StockQuote" "Stock Quote" nonempty_key no_number unreadable_input
    ["collect"; "in.json"; "out.json"] initial_world
  = (Abrupt (Exit 0), initial_world).
Proof.
  assert (Hm : In "collect" input_methods) by (simpl; tauto).
  split; [reflexivity|]. split; [exact Hm|].
  apply (main_unreadable_input "StockQuote" "Stock Quote" nonempty_key
           no_number unreadable_input "collect" "in.json" "out.json"
           initial_world (Exn "FileNotFoundError" "'in.json'") eq_refl Hm).
Defined.

Lemma main_test_writes_result_witness :
  let env := answering {| status_code := 404; json_body := inr JNull |} in
  from_input env = inr abc_instance /\
  write_fault env = None /\
  exists r,
    test (R' := unit) env abc_instance initial_world
    = (Normal (Some r), asked (instance_url abc_instance) initial_world) /\
    main "StockQuote" "Stock Quote" nonempty_key no_number env
      ["test"; "in.json"; "out.json"] initial_world
    = (Abrupt (Exit 0),
       written (TestPayload r)
         (asked (instance_url abc_instance) initial_world)).
Proof.
  intros env. split; [reflexivity|]. split; [reflexivity|].
  apply (main_test_writes_result "StockQuote" "Stock Quote" nonempty_key
           no_number env "in.json" "out.json" initial_world abc_instance);
    reflexivity.
Defined.

(** A body without the fields: the report written is the message alone. *)
Lemma main_collect_writes_report_witness :
  let env := answering {| status_code := 200; json_body := inr (JObj ∅) |} in
  let w1 := asked (instance_url abc_instance) initial_world in
  from_input env = inr abc_instance /\
  write_fault env = None /\
  ((exists r j,
       collect (R' := unit) "StockQuote" no_number env abc_instance
         initial_world
       = (Normal (Some r), w1) /\
       CollectResult_get_json no_number r = inr j /\
       match collect_error_message r with
       | Some msg => j = ErrorJson msg
       | None => exists result, j = ResultJson result
       end /\
       main "StockQuote" "Stock Quote" nonempty_key no_number env
         ["collect"; "in.json"; "out.json"] initial_world
       = (Abrupt (Exit 0), written (CollectPayload j) w1))
   \/
   (exists e,
       collect (R' := unit) "StockQuote" no_number env abc_instance
         initial_world
       = (Abrupt (Raise e), w1) /\
       main "StockQuote" "Stock Quote" nonempty_key no_number env
         ["collect"; "in.json"; "out.json"] initial_world
       = (Abrupt (Exit 0), w1))).
Proof.
  intros env w1. split; [reflexivity|]. split; [reflexivity|].
  apply (main_collect_writes_report "StockQuote" "Stock Quote" nonempty_key
           no_number env "in.json" "out.json" initial_world abc_instance);
    reflexivity.
Defined.

Lemma main_endpoint_urls_writes_empty_witness :
  from_input unreachable = inr abc_instance /\
  write_fault unreachable = None /\
  main "StockQuote" "Stock Quote" nonempty_key no_number unreachable
    ["endpoint_urls"; "in.json"; "out.json"] initial_world
  = (Abrupt (Exit 0),
     written (EndpointPayload {| endpoints := [] |}) initial_world).
Proof.
  split; [reflexivity|]. split; [reflexivity|].
  apply (main_endpoint_urls_writes_empty "StockQuote" "Stock Quote"
           nonempty_key no_number unreachable "in.json" "out.json"
           initial_world abc_instance eq_refl eq_refl).
Defined.

(** The definition is written even though the input file cannot be
    read. *)
Lemma main_adapter_definition_writes_witness :
  nonempty_key "StockQuote" = true /\
  Forall (fun k => nonempty_key k = true) defined_keys /\
  write_fault unreadable_input = None /\
  exists d,
    get_adapter_definition (R' := unit) "StockQuote" "Stock Quote"
      nonempty_key initial_world
    = (Normal (Some d), initial_world) /\
    main "StockQuote" "Stock Quote" nonempty_key no_number unreadable_input
      ["adapter_definition"; "in.json"; "out.json"] initial_world
    = (Abrupt (Exit 0), written (DefinitionPayload d) initial_world).
Proof.
  assert (Hkeys : Forall (fun k => nonempty_key k = true) defined_keys)
    by (unfold defined_keys; repeat constructor).
  split; [reflexivity|]. split; [exact Hkeys|]. split; [reflexivity|].
  apply (main_adapter_definition_writes "StockQuote" "Stock Quote"
           nonempty_key no_number unreadable_input "in.json" "out.json"
           initial_world eq_refl Hkeys eq_refl).
Defined.

Lemma payload_matches_method_witness :
  let env := answering {| status_code := 200; json_body := inr JNull |} in
  let argv := ["test"; "in.json"; "out.json"] in
  out_file (run "StockQuote" "Stock Quote" nonempty_key no_number env argv).2
  = Some (TestPayload new_TestResult) /\
  exists input output,
    argv = [payload_method (TestPayload new_TestResult); input; output].
Proof.
  intros env argv.
  assert (Hp : out_file (run "StockQuote" "Stock Quote" nonempty_key
                           no_number env argv).2
               = Some (TestPayload new_TestResult)) by reflexivity.
  split; [exact Hp|].
  apply (payload_matches_method "StockQuote" "Stock Quote" nonempty_key
           no_number env argv (TestPayload new_TestResult) Hp).
Defined.

Lemma main_requests_witness :
  let env := answering {| status_code := 200; json_body := inr quote_body |} in
  let argv := ["collect"; "in.json"; "out.json"] in
  requested (main "StockQuote" "Stock Quote" nonempty_key no_number env argv
               initial_world).2
  <> requested initial_world /\
  exists ai input output,
    from_input env = inr ai /\
    (argv = ["test"; input; output] \/ argv = ["collect"; input; output]) /\
    requested (main "StockQuote" "Stock Quote" nonempty_key no_number env
                 argv initial_world).2
    = (requested initial_world ++ [instance_url ai])%list.
Proof.
  intros env argv.
  assert (Hr : requested (main "StockQuote" "Stock Quote" nonempty_key
                            no_number env argv initial_world).2
               <> requested initial_world) by (vm_compute; discriminate).
  split; [exact Hr|].
  apply (main_requests "StockQuote" "Stock Quote" nonempty_key no_number env
           argv initial_world Hr).
Defined.
